(** * The Dynamic Straddle Scalper: tick decision engine

    A shallow embedding of [agents/straddle_scalper.py]
    ([StraddleConfig], [MarketData], [StraddleLogic]) and the properties
    of its tick-reaction state machine.

    Python's [float] is IEEE-754 binary64, so prices, distances and
    velocities are the kernel's primitive floats: the arithmetic rounds as
    the interpreter's does, comparisons with a NaN are false, and a decimal
    literal denotes the nearest binary64 value.  Logging is not modelled. *)

From Stdlib Require Import Floats Bool List String ZArith.
Import ListNotations.

Set Warnings "-inexact-float".

(** ** Python values *)

Module Py.

(** The exceptions the modelled code could raise. *)
Inductive exn : Type :=
| ZeroDivisionError.

(** A computation that returns a value or raises. *)
Inductive Exc (A : Type) : Type :=
| Return (a : A)
| Raise (e : exn).
Arguments Return {A} a.
Arguments Raise {A} e.

Definition bind {A B : Type} (m : Exc A) (k : A -> Exc B) : Exc B :=
  match m with
  | Return a => k a
  | Raise e => Raise e
  end.

(** [bool(x)] of a float: false exactly for [0.0] and [-0.0]; a NaN is
    truthy. *)
Definition truthy (x : float) : bool := negb (x =? 0)%float.

(** [x / y] on floats: a zero divisor raises. *)
Definition truediv (x y : float) : Exc float :=
  if (y =? 0)%float then Raise ZeroDivisionError else Return (x / y)%float.

End Py.

Import Py.

Notation "x <- m ;; k" := (bind m (fun x => k))
  (at level 61, m at next level, right associativity).

(** ** Data model *)

(** [StraddleConfig]: the nine constructor arguments, stored as given. *)
Record StraddleConfig : Type := mkStraddleConfig {
  symbol : string;
  straddle_gap_pips : float;
  stop_loss_pips : float;
  take_profit_pips : float;
  trailing_start_pips : float;
  trailing_step_pips : float;
  velocity_threshold_pips : float;
  max_spread_pips : float;
  lot_size : float
}.

(** The constructor's default arguments. *)
Definition default_config : StraddleConfig :=
  mkStraddleConfig "EURUSD" 2.0 3.0 5.0 1.0 0.5 0.5 1.0 0.01.

(** [MarketData]: one tick.  The attribute [mid] is computed once by the
    constructor from [bid] and [ask] and never assigned again. *)
Record MarketData : Type := mkMarketData {
  bid : float;
  ask : float;
  timestamp : float
}.

Definition mid (t : MarketData) : float := ((bid t + ask t) / 2)%float.

(** The ['side'] entry of the position dictionary. *)
Inductive Side : Type := BUY | SELL.

(** The dictionary held in [active_position]: keys ['side'], ['entry'],
    ['sl']. *)
Record Position : Type := mkPosition {
  side : Side;
  entry : float;
  sl : float
}.

(** The instruction dictionaries [on_tick] returns, by their ['action']. *)
Inductive Instruction : Type :=
| OPEN_BUY (price stop : float)
| OPEN_SELL (price stop : float)
| MODIFY_SL (stop : float)
| CLOSE_BUY
| CLOSE_SELL.

(** The mutable attributes of a [StraddleLogic] object ([config] is never
    reassigned and is passed alongside). *)
Record StraddleLogic : Type := mkStraddleLogic {
  virtual_buy_stop : option float;
  virtual_sell_stop : option float;
  active_position : option Position;
  last_tick : option MarketData;
  velocity : float;
  is_active : bool
}.

(** [StraddleLogic.__init__]. *)
Definition init : StraddleLogic :=
  mkStraddleLogic None None None None 0.0 false.

(** Attribute assignments. *)
Definition set_cage (s : StraddleLogic) (b sl' : option float) : StraddleLogic :=
  mkStraddleLogic b sl' (active_position s) (last_tick s) (velocity s)
                  (is_active s).

Definition set_buy_stop (s : StraddleLogic) (b : option float) : StraddleLogic :=
  set_cage s b (virtual_sell_stop s).

Definition set_sell_stop (s : StraddleLogic) (v : option float) : StraddleLogic :=
  set_cage s (virtual_buy_stop s) v.

Definition set_position (s : StraddleLogic) (p : option Position) : StraddleLogic :=
  mkStraddleLogic (virtual_buy_stop s) (virtual_sell_stop s) p (last_tick s)
                  (velocity s) (is_active s).

Definition set_last_tick (s : StraddleLogic) (t : MarketData) : StraddleLogic :=
  mkStraddleLogic (virtual_buy_stop s) (virtual_sell_stop s)
                  (active_position s) (Some t) (velocity s) (is_active s).

Definition set_velocity (s : StraddleLogic) (v : float) : StraddleLogic :=
  mkStraddleLogic (virtual_buy_stop s) (virtual_sell_stop s)
                  (active_position s) (last_tick s) v (is_active s).

Definition set_active (s : StraddleLogic) (a : bool) : StraddleLogic :=
  mkStraddleLogic (virtual_buy_stop s) (virtual_sell_stop s)
                  (active_position s) (last_tick s) (velocity s) a.

(** ** The engine *)

Section Engine.

Variable config : StraddleConfig.

Local Open Scope float_scope.

(** [reset_cage(current_price=None)]: the anchor defaults to the stored
    tick's mid; a missing or zero anchor unsets both levels. *)
Definition reset_cage (s : StraddleLogic) (current_price : option float)
  : StraddleLogic :=
  let current_price :=
    match current_price, last_tick s with
    | None, Some lt => Some (mid lt)
    | _, _ => current_price
    end in
  match current_price with
  | Some p =>
      if truthy p then
        let gap := straddle_gap_pips config / 10000 in
        set_cage s (Some (p + gap)) (Some (p - gap))
      else set_cage s None None
  | None => set_cage s None None
  end.

(** The two trailing assignments of [_manage_cage]. *)
Definition trail_buy (tick : MarketData) (s : StraddleLogic) : StraddleLogic :=
  let gap := straddle_gap_pips config / 10000 in
  match virtual_buy_stop s with
  | Some b =>
      if truthy b && (ask tick + gap <? b)
      then set_buy_stop s (Some (ask tick + gap))
      else s
  | None => s
  end.

Definition trail_sell (tick : MarketData) (s : StraddleLogic) : StraddleLogic :=
  let gap := straddle_gap_pips config / 10000 in
  match virtual_sell_stop s with
  | Some v =>
      if truthy v && (v <? bid tick - gap)
      then set_sell_stop s (Some (bid tick - gap))
      else s
  | None => s
  end.

(** The breach tests of [_manage_cage]: [stop and tick.ask >= stop],
    [stop and tick.bid <= stop]. *)
Definition buy_breached (tick : MarketData) (s : StraddleLogic) : bool :=
  match virtual_buy_stop s with
  | Some b => truthy b && (b <=? ask tick)
  | None => false
  end.

Definition sell_breached (tick : MarketData) (s : StraddleLogic) : bool :=
  match virtual_sell_stop s with
  | Some v => truthy v && (bid tick <=? v)
  | None => false
  end.

(** [_manage_cage]: trail both levels, then test the buy breach before
    the sell breach. *)
Definition _manage_cage (s : StraddleLogic) (tick : MarketData)
  : StraddleLogic * option Instruction :=
  let s := trail_buy tick s in
  let s := trail_sell tick s in
  if buy_breached tick s then
    let stop := ask tick - stop_loss_pips config / 10000 in
    (set_position s (Some (mkPosition BUY (ask tick) stop)),
     Some (OPEN_BUY (ask tick) stop))
  else if sell_breached tick s then
    let stop := bid tick + stop_loss_pips config / 10000 in
    (set_position s (Some (mkPosition SELL (bid tick) stop)),
     Some (OPEN_SELL (bid tick) stop))
  else (s, None).

Definition pips : float := 0.0001.

(** [_manage_position]: hard stop first, then the trailing stop. *)
Definition _manage_position (s : StraddleLogic) (tick : MarketData)
  : StraddleLogic * option Instruction :=
  match active_position s with
  | None => (s, None)
  | Some pos =>
      match side pos with
      | BUY =>
          let profit := bid tick - entry pos in
          if bid tick <=? sl pos then
            (reset_cage (set_position s None) (Some (mid tick)),
             Some CLOSE_BUY)
          else if trailing_start_pips config * pips <? profit then
            let new_sl := bid tick - trailing_step_pips config * pips in
            if sl pos <? new_sl then
              (set_position s (Some (mkPosition BUY (entry pos) new_sl)),
               Some (MODIFY_SL new_sl))
            else (s, None)
          else (s, None)
      | SELL =>
          let profit := entry pos - ask tick in
          if sl pos <=? ask tick then
            (reset_cage (set_position s None) (Some (mid tick)),
             Some CLOSE_SELL)
          else if trailing_start_pips config * pips <? profit then
            let new_sl := ask tick + trailing_step_pips config * pips in
            if new_sl <? sl pos then
              (set_position s (Some (mkPosition SELL (entry pos) new_sl)),
               Some (MODIFY_SL new_sl))
            else (s, None)
          else (s, None)
      end
  end.

(** Step 1 of [on_tick]: the smoothed velocity after this tick. *)
Definition update_velocity (s : StraddleLogic) (tick : MarketData)
  : Exc float :=
  match last_tick s with
  | Some lt =>
      let dt := timestamp tick - timestamp lt in
      if 0 <? dt then
        let price_change_pips := abs (mid tick - mid lt) * 10000 in
        current_velocity <- truediv price_change_pips dt ;;
        Return (velocity s * 0.7 + current_velocity * 0.3)
      else Return (velocity s)
  | None => Return (velocity s)
  end.

(** Steps 2 and 3 of [on_tick], on the state whose velocity and stored
    tick are already updated. *)
Definition dispatch (s : StraddleLogic) (tick : MarketData)
  : StraddleLogic * option Instruction :=
  if velocity s <? velocity_threshold_pips config then
    match is_active s, active_position s with
    | true, None => (reset_cage s None, None)
    | _, _ => (s, None)
    end
  else
    let s :=
      if is_active s then s
      else reset_cage (set_active s true) (Some (mid tick)) in
    match active_position s with
    | Some _ => _manage_position s tick
    | None => _manage_cage s tick
    end.

(** [on_tick]: process one tick; the new object state and the returned
    instruction ([None] for no action). *)
Definition on_tick (s : StraddleLogic) (tick : MarketData)
  : Exc (StraddleLogic * option Instruction) :=
  v <- update_velocity s tick ;;
  Return (dispatch (set_last_tick (set_velocity s v) tick) tick).

(** Feeding a list of ticks in order, as the simulation loop does;
    the final state and the instruction of every tick. *)
Fixpoint run (s : StraddleLogic) (ticks : list MarketData)
  : Exc (StraddleLogic * list (option Instruction)) :=
  match ticks with
  | [] => Return (s, [])
  | tick :: rest =>
      r <- on_tick s tick ;;
      r' <- run (fst r) rest ;;
      Return (fst r', snd r :: snd r')
  end.

(** The states the object goes through over a list of ticks: the one
    before the first tick, then the one after each tick. *)
Fixpoint states (s : StraddleLogic) (ticks : list MarketData)
  : list StraddleLogic :=
  s :: match ticks with
       | [] => []
       | tick :: rest =>
           match on_tick s tick with
           | Return (s', _) => states s' rest
           | Raise _ => []
           end
       end.

End Engine.

(** ** The states of the engine and the statements under test *)

Section Statements.

Variable config : StraddleConfig.

Local Open Scope float_scope.

(** The four states, read off the object's attributes. *)
Definition is_Idle (s : StraddleLogic) : Prop :=
  is_active s = false /\ active_position s = None.

Definition is_Caged (s : StraddleLogic) : Prop :=
  is_active s = true /\ active_position s = None.

Definition is_Long (s : StraddleLogic) : Prop :=
  is_active s = true /\
  exists p, active_position s = Some p /\ side p = BUY.

Definition is_Short (s : StraddleLogic) : Prop :=
  is_active s = true /\
  exists p, active_position s = Some p /\ side p = SELL.

Definition exactly_one_state (s : StraddleLogic) : Prop :=
  (is_Idle s /\ ~ is_Caged s /\ ~ is_Long s /\ ~ is_Short s) \/
  (~ is_Idle s /\ is_Caged s /\ ~ is_Long s /\ ~ is_Short s) \/
  (~ is_Idle s /\ ~ is_Caged s /\ is_Long s /\ ~ is_Short s) \/
  (~ is_Idle s /\ ~ is_Caged s /\ ~ is_Long s /\ is_Short s).

(** Both levels hold a float / both levels are [None]. *)
Definition cage_populated (s : StraddleLogic) : Prop :=
  virtual_buy_stop s <> None /\ virtual_sell_stop s <> None.

Definition cage_unset (s : StraddleLogic) : Prop :=
  virtual_buy_stop s = None /\ virtual_sell_stop s = None.

(** The velocity gate of [on_tick], on the velocity after the update. *)
Definition below_threshold (v : float) : bool :=
  v <? velocity_threshold_pips config.

Definition gap : float := straddle_gap_pips config / 10000.

(** A level that stays or moves strictly down / strictly up. *)
Definition ratchets_down (old new : option float) : Prop :=
  new = old \/
  exists o n, old = Some o /\ new = Some n /\ (n <? o) = true.

Definition ratchets_up (old new : option float) : Prop :=
  new = old \/
  exists o n, old = Some o /\ new = Some n /\ (o <? n) = true.

(** The same position with its stop kept or moved in its favour. *)
Definition stop_not_worse (p p' : Position) : Prop :=
  side p' = side p /\ entry p' = entry p /\
  (sl p' = sl p \/
   match side p with
   | BUY => (sl p <? sl p') = true
   | SELL => (sl p' <? sl p) = true
   end).

(** The hard-stop test and the trailing test of [_manage_position],
    as the specification words them. *)
Definition hard_stop_hit (p : Position) (tick : MarketData) : bool :=
  match side p with
  | BUY => bid tick <=? sl p
  | SELL => sl p <=? ask tick
  end.

Definition candidate_stop (p : Position) (tick : MarketData) : float :=
  match side p with
  | BUY => bid tick - trailing_step_pips config * pips
  | SELL => ask tick + trailing_step_pips config * pips
  end.

Definition unrealized_profit (p : Position) (tick : MarketData) : float :=
  match side p with
  | BUY => bid tick - entry p
  | SELL => entry p - ask tick
  end.

Definition strictly_tighter (p : Position) (tick : MarketData) : bool :=
  match side p with
  | BUY => sl p <? candidate_stop p tick
  | SELL => candidate_stop p tick <? sl p
  end.

Definition trail_due (p : Position) (tick : MarketData) : bool :=
  strictly_tighter p tick &&
  (trailing_start_pips config * pips <? unrealized_profit p tick).

Definition is_modify_sl (out : option Instruction) : bool :=
  match out with
  | Some (MODIFY_SL _) => true
  | _ => false
  end.

Definition close_of (sd : Side) : Instruction :=
  match sd with
  | BUY => CLOSE_BUY
  | SELL => CLOSE_SELL
  end.

(** An observation the specification's boundary validation would turn
    away: crossed quotes, a price that is not positive, or a value that
    is not finite. *)
Definition finite (x : float) : bool :=
  (x =? x) && negb (abs x =? infinity).

Definition invalid_observation (t : MarketData) : bool :=
  (ask t <? bid t) || (bid t <=? 0) || (ask t <=? 0) ||
  negb (finite (bid t)) || negb (finite (ask t)) ||
  negb (finite (timestamp t)).

(** Two configurations that agree on everything but the take-profit
    distance and the maximum spread. *)
Definition same_but_tp_and_spread (c : StraddleConfig) : Prop :=
  symbol c = symbol config /\
  straddle_gap_pips c = straddle_gap_pips config /\
  stop_loss_pips c = stop_loss_pips config /\
  trailing_start_pips c = trailing_start_pips config /\
  trailing_step_pips c = trailing_step_pips config /\
  velocity_threshold_pips c = velocity_threshold_pips config /\
  lot_size c = lot_size config.

(** *** Sentences of the specification, as they are worded *)

(** A low-velocity tick on an active, flat engine deactivates it and
    unsets both levels, with no instruction. *)
Definition spec_gate_deactivates (s : StraddleLogic) (tick : MarketData)
  : Prop :=
  forall v,
    update_velocity s tick = Return v -> below_threshold v = true ->
    is_Caged s ->
    exists s',
      on_tick config s tick = Return (s', None) /\
      is_active s' = false /\ cage_unset s'.

(** Exactly one state holds; the cage is populated iff Caged; a position
    exists iff Long or Short. *)
Definition spec_mutual_exclusion (s : StraddleLogic) : Prop :=
  exactly_one_state s /\
  (cage_populated s <-> is_Caged s) /\
  (active_position s <> None <-> is_Long s \/ is_Short s).

(** From one Caged state to the next, the buy level does not rise and
    the sell level does not fall. *)
Definition spec_ratchet (s : StraddleLogic) (tick : MarketData) : Prop :=
  is_Caged s ->
  forall s' out,
    on_tick config s tick = Return (s', out) -> is_Caged s' ->
    ratchets_down (virtual_buy_stop s) (virtual_buy_stop s') /\
    ratchets_up (virtual_sell_stop s) (virtual_sell_stop s').

(** An open position is put through [_manage_position] on every tick,
    whatever the velocity. *)
Definition spec_position_always_managed
           (s : StraddleLogic) (tick : MarketData) : Prop :=
  forall p v,
    active_position s = Some p ->
    update_velocity s tick = Return v ->
    on_tick config s tick =
    Return (_manage_position config
              (set_last_tick (set_velocity s v) tick) tick).

(** An invalid observation is turned away: the call raises, or at the
    least leaves the velocity and both levels as they were. *)
Definition spec_rejects_invalid (s : StraddleLogic) (tick : MarketData)
  : Prop :=
  invalid_observation tick = true ->
  (exists e, on_tick config s tick = Raise e) \/
  (exists s' out,
      on_tick config s tick = Return (s', out) /\
      velocity s' = velocity s /\
      virtual_buy_stop s' = virtual_buy_stop s /\
      virtual_sell_stop s' = virtual_sell_stop s).

(** Whenever the quote is at or beyond the stop of the open position,
    the tick closes it and leaves a fresh cage at mid ± gap. *)
Definition spec_close_reseeds (s : StraddleLogic) (tick : MarketData)
  : Prop :=
  forall p,
    active_position s = Some p -> hard_stop_hit p tick = true ->
    exists s',
      on_tick config s tick = Return (s', Some (close_of (side p))) /\
      is_Caged s' /\
      virtual_buy_stop s' = Some (mid tick + gap) /\
      virtual_sell_stop s' = Some (mid tick - gap).

(** The stop of an open position never worsens, and [MODIFY_SL] is
    emitted exactly when the trailing test succeeds. *)
Definition spec_trailing (s : StraddleLogic) (tick : MarketData) : Prop :=
  forall p s' out,
    active_position s = Some p ->
    on_tick config s tick = Return (s', out) ->
    (forall p', active_position s' = Some p' -> stop_not_worse p p') /\
    is_modify_sl out = trail_due p tick.

(** What every tick preserves: a position is only held by an active
    engine, and an inactive engine has no levels. *)
Definition engine_invariant (s : StraddleLogic) : Prop :=
  (active_position s <> None -> is_active s = true) /\
  (is_active s = false -> cage_unset s).

(** An active engine has both levels set. *)
Definition caged_when_active (s : StraddleLogic) : Prop :=
  is_active s = true -> cage_populated s.

(** A tick whose mid price is not zero. *)
Definition nonzero_mid (tick : MarketData) : Prop :=
  truthy (mid tick) = true.

(** The state a tick leaves behind when it re-centres the cage on its
    own mid price with no position open. *)
Definition recentred (tick : MarketData) (v : float) : StraddleLogic :=
  if truthy (mid tick) then
    mkStraddleLogic (Some (mid tick + gap)) (Some (mid tick - gap))
                    None (Some tick) v true
  else
    mkStraddleLogic None None None (Some tick) v true.

End Statements.

(** ** The instruction stream, read by its receiver *)

(** What a receiver that follows the instructions holds after one of
    them: [None] when the instruction does not fit the holding (an open
    on top of a position, a close or a stop change with nothing held, a
    close for the other side). *)
Definition apply_instruction (held : option Position)
           (out : option Instruction) : option (option Position) :=
  match out, held with
  | None, _ => Some held
  | Some (OPEN_BUY price stop), None => Some (Some (mkPosition BUY price stop))
  | Some (OPEN_SELL price stop), None =>
      Some (Some (mkPosition SELL price stop))
  | Some (MODIFY_SL stop), Some p =>
      Some (Some (mkPosition (side p) (entry p) stop))
  | Some CLOSE_BUY, Some p =>
      match side p with BUY => Some None | SELL => None end
  | Some CLOSE_SELL, Some p =>
      match side p with SELL => Some None | BUY => None end
  | _, _ => None
  end.

Fixpoint replay (held : option Position) (outs : list (option Instruction))
  : option (option Position) :=
  match outs with
  | [] => Some held
  | out :: rest =>
      match apply_instruction held out with
      | Some held' => replay held' rest
      | None => None
      end
  end.

(** ** Concrete tick sequences

    EURUSD quotes one pip wide, fed to an engine with the default
    configuration (gap 2 pips, stop 3 pips, threshold 0.5 pips/s). *)

Module Scenario.

Local Open Scope float_scope.

Definition t0 : MarketData := mkMarketData 1.1000 1.1001 0.
(** Two pips up in one second: velocity 0.6, the engine activates. *)
Definition t1 : MarketData := mkMarketData 1.1002 1.1003 1.
(** A tenth of a pip up: velocity decays to 0.45. *)
Definition t2_calm : MarketData := mkMarketData 1.10021 1.10031 2.
(** Two more pips up: the ask crosses the buy level. *)
Definition t2_break : MarketData := mkMarketData 1.1004 1.1005 2.
(** The price stands still: velocity decays to 0.714, then 0.4998. *)
Definition t3 : MarketData := mkMarketData 1.1004 1.1005 3.
Definition t4 : MarketData := mkMarketData 1.1004 1.1005 4.
(** A late tick three pips down, below the long's stop. *)
Definition t5_drop : MarketData := mkMarketData 1.1001 1.1002 1004.
(** A late tick six pips up, far in the long's favour. *)
Definition t5_rise : MarketData := mkMarketData 1.1010 1.1011 10004.
(** A prompt tick three pips down, below the long's stop. *)
Definition t3_stop : MarketData := mkMarketData 1.1001 1.1002 3.
(** A prompt tick six pips up, in the long's favour. *)
Definition t3_rise : MarketData := mkMarketData 1.1010 1.1011 3.
(** Crossed quotes: the ask below the bid. *)
Definition t1_crossed : MarketData := mkMarketData 1.1003 1.1002 1.

(** A tick whose bid is not a number. *)
Definition t2_nan : MarketData := mkMarketData nan 1.1005 2.

(** Active and flat after the burst. *)
Definition caged_ticks : list MarketData := [t0; t1].
(** Long after the breach. *)
Definition long_ticks : list MarketData := [t0; t1; t2_break].
(** Long, and the velocity has decayed below the threshold. *)
Definition quiet_long_ticks : list MarketData := [t0; t1; t2_break; t3; t4].

(** The configuration with another take-profit and spread limit. *)
Definition other_config : StraddleConfig :=
  mkStraddleConfig "EURUSD" 2.0 3.0 50.0 1.0 0.5 0.5 0.1 0.01.

End Scenario.

(** * Properties *)

(** ** Floats *)

Section FloatFacts.

Local Open Scope float_scope.

Lemma Prim2SF_zero : Prim2SF 0 = S754_zero false.
Proof. reflexivity. Qed.

(** A strictly positive float is not a zero. *)
Lemma pos_not_zero (d : float) : (0 <? d) = true -> (d =? 0) = false.
Proof.
  rewrite ltb_spec, FloatAxioms.eqb_spec, Prim2SF_zero.
  destruct (Prim2SF d) as [sg | sg | | sg m e];
    try destruct sg; cbv; congruence.
Qed.

(** A float at most zero is not strictly positive. *)
Lemma nonpos_not_pos (d : float) : (d <=? 0) = true -> (0 <? d) = false.
Proof.
  rewrite ltb_spec, leb_spec, Prim2SF_zero.
  destruct (Prim2SF d) as [sg | sg | | sg m e];
    try destruct sg; cbv; congruence.
Qed.

End FloatFacts.

(** Constructor injectivity, usable on float literals. *)
Lemma some_eq {A : Type} (a b : A) : Some a = Some b -> a = b.
Proof.
  intros H.
  exact (f_equal (fun o => match o with Some z => z | None => a end) H).
Qed.

(** ** Frame lemmas: which attributes each method leaves alone *)

(** Split on the scrutinee of the first [match] or [if] of the goal. *)
Ltac split_match :=
  match goal with
  | |- context [match ?x with _ => _ end] =>
      let E := fresh "E" in destruct x eqn:E; simpl in *
  end.

Section Frames.

Variable config : StraddleConfig.

Lemma reset_cage_frame (s : StraddleLogic) (anchor : option float) :
  let s' := reset_cage config s anchor in
  active_position s' = active_position s /\
  last_tick s' = last_tick s /\
  velocity s' = velocity s /\
  is_active s' = is_active s.
Proof.
  unfold reset_cage; simpl.
  repeat split_match; auto.
Qed.

Lemma trail_buy_frame (tick : MarketData) (s : StraddleLogic) :
  let s' := trail_buy config tick s in
  virtual_sell_stop s' = virtual_sell_stop s /\
  active_position s' = active_position s /\
  last_tick s' = last_tick s /\
  velocity s' = velocity s /\
  is_active s' = is_active s.
Proof.
  unfold trail_buy; simpl.
  repeat split_match; auto.
Qed.

Lemma trail_sell_frame (tick : MarketData) (s : StraddleLogic) :
  let s' := trail_sell config tick s in
  virtual_buy_stop s' = virtual_buy_stop s /\
  active_position s' = active_position s /\
  last_tick s' = last_tick s /\
  velocity s' = velocity s /\
  is_active s' = is_active s.
Proof.
  unfold trail_sell; simpl.
  repeat split_match; auto.
Qed.

Lemma manage_cage_frame (s : StraddleLogic) (tick : MarketData) :
  let s' := fst (_manage_cage config s tick) in
  last_tick s' = last_tick s /\
  velocity s' = velocity s /\
  is_active s' = is_active s.
Proof.
  unfold _manage_cage.
  destruct (trail_buy_frame tick s) as (_ & _ & Lb & Vb & Ab).
  destruct (trail_sell_frame tick (trail_buy config tick s))
    as (_ & _ & Ls & Vs & As).
  simpl in *.
  repeat split_match; simpl; repeat split; congruence.
Qed.

Lemma manage_position_frame (s : StraddleLogic) (tick : MarketData) :
  let s' := fst (_manage_position config s tick) in
  last_tick s' = last_tick s /\
  velocity s' = velocity s /\
  is_active s' = is_active s.
Proof.
  unfold _manage_position; simpl.
  repeat split_match; auto;
    destruct (reset_cage_frame (set_position s None) (Some (mid tick)))
      as (_ & L & V & A); simpl in *; auto.
Qed.

Lemma dispatch_frame (s : StraddleLogic) (tick : MarketData) :
  let s' := fst (dispatch config s tick) in
  last_tick s' = last_tick s /\ velocity s' = velocity s.
Proof.
  unfold dispatch; simpl.
  destruct (velocity s <? velocity_threshold_pips config)%float.
  - destruct (is_active s), (active_position s); simpl; auto.
    destruct (reset_cage_frame s None) as (_ & L & V & _); auto.
  - set (s1 := if is_active s then s
               else reset_cage config (set_active s true) (Some (mid tick))).
    assert (F : last_tick s1 = last_tick s /\ velocity s1 = velocity s).
    { subst s1. destruct (is_active s); auto.
      destruct (reset_cage_frame (set_active s true) (Some (mid tick)))
        as (_ & L & V & _); auto. }
    destruct F as [L V].
    destruct (active_position s1).
    + destruct (manage_position_frame s1 tick) as (L' & V' & _).
      simpl in *; split; congruence.
    + destruct (manage_cage_frame s1 tick) as (L' & V' & _).
      simpl in *; split; congruence.
Qed.

(** The velocity update never raises: the division is guarded by
    [dt > 0]. *)
Lemma update_velocity_returns (s : StraddleLogic) (tick : MarketData) :
  exists v, update_velocity s tick = Return v.
Proof.
  unfold update_velocity.
  destruct (last_tick s) as [lt | ]; [ | eauto ].
  destruct (0 <? timestamp tick - timestamp lt)%float eqn:Hdt; [ | eauto ].
  unfold truediv. rewrite (pos_not_zero _ Hdt). simpl. eauto.
Qed.

(** [on_tick] once the velocity update has returned. *)
Lemma on_tick_unfold (s : StraddleLogic) (tick : MarketData) (v : float) :
  update_velocity s tick = Return v ->
  on_tick config s tick =
  Return (dispatch config (set_last_tick (set_velocity s v) tick) tick).
Proof. intros H. unfold on_tick. rewrite H. reflexivity. Qed.

(** [on_tick] always returns, and what it returns carries the updated
    velocity and the tick just seen. *)
Lemma on_tick_returns (s : StraddleLogic) (tick : MarketData) :
  exists v s' out,
    update_velocity s tick = Return v /\
    on_tick config s tick = Return (s', out) /\
    dispatch config (set_last_tick (set_velocity s v) tick) tick = (s', out) /\
    velocity s' = v /\ last_tick s' = Some tick.
Proof.
  destruct (update_velocity_returns s tick) as [v Hv].
  destruct (dispatch config (set_last_tick (set_velocity s v) tick) tick)
    as [s' out] eqn:D.
  exists v, s', out.
  destruct (dispatch_frame (set_last_tick (set_velocity s v) tick) tick)
    as [L V].
  rewrite D in L, V. simpl in L, V.
  rewrite (on_tick_unfold _ _ _ Hv), D. auto.
Qed.

Lemma run_returns (ticks : list MarketData) (s : StraddleLogic) :
  exists s' outs, run config s ticks = Return (s', outs).
Proof.
  revert s. induction ticks as [ | tick rest IH]; intros s; simpl.
  - eauto.
  - destruct (on_tick_returns s tick) as (v & s1 & out & _ & H & _).
    rewrite H. simpl.
    destruct (IH s1) as (s2 & outs & H2). rewrite H2. simpl. eauto.
Qed.

End Frames.

(** ** The velocity update (step 1) *)

(** C9 — On a tick with no previous observation, or whose elapsed time
    since the previous observation is zero or negative, the smoothed
    velocity is left unchanged; [on_tick] never raises (the division is
    only reached with a strictly positive divisor); and in every case the
    new observation replaces the stored one. *)
Theorem velocity_update_guarded
        (config : StraddleConfig) (s : StraddleLogic) (tick : MarketData) :
  exists s' out,
    on_tick config s tick = Return (s', out) /\
    last_tick s' = Some tick /\
    (last_tick s = None -> velocity s' = velocity s) /\
    (forall prev,
        last_tick s = Some prev ->
        (timestamp tick - timestamp prev <=? 0)%float = true ->
        velocity s' = velocity s).
Proof.
  destruct (on_tick_returns config s tick) as (v & s' & out & Hv & H & _ & V & L).
  exists s', out. repeat split; auto.
  - intros Hnone. unfold update_velocity in Hv. rewrite Hnone in Hv.
    congruence.
  - intros prev Hprev Hdt. unfold update_velocity in Hv.
    rewrite Hprev, (nonpos_not_pos _ Hdt) in Hv. congruence.
Qed.

(** ** Parameters no transition reads *)

Section Inert.

Variables c1 c2 : StraddleConfig.
Hypothesis agree : same_but_tp_and_spread c1 c2.

Lemma on_tick_inert (s : StraddleLogic) (tick : MarketData) :
  on_tick c2 s tick = on_tick c1 s tick.
Proof.
  destruct agree as (_ & Hgap & Hsl & Hstart & Hstep & Hthr & _).
  unfold on_tick, dispatch, _manage_position, _manage_cage, buy_breached,
    sell_breached, trail_sell, trail_buy, reset_cage.
  rewrite Hgap, Hsl, Hstart, Hstep, Hthr. reflexivity.
Qed.

End Inert.

(** C10 — Two configurations that differ only in the take-profit distance
    and/or the maximum spread drive the engine identically: over any tick
    sequence from any state, the final state and the instruction emitted at
    every tick are the same. *)
Theorem unused_parameters_inert (c1 c2 : StraddleConfig) :
  same_but_tp_and_spread c1 c2 ->
  forall (ticks : list MarketData) (s : StraddleLogic),
    run c2 s ticks = run c1 s ticks.
Proof.
  intros agree ticks.
  induction ticks as [ | tick rest IH]; intros s; simpl.
  - reflexivity.
  - rewrite (on_tick_inert c1 c2 agree).
    destruct (on_tick c1 s tick) as [[s' out] | e]; simpl.
    + rewrite IH. reflexivity.
    + reflexivity.
Qed.

Lemma unused_parameters_inert_witness :
  same_but_tp_and_spread default_config Scenario.other_config /\
  run Scenario.other_config init Scenario.long_ticks =
  run default_config init Scenario.long_ticks.
Proof.
  assert (A : same_but_tp_and_spread default_config Scenario.other_config)
    by (repeat split; reflexivity).
  split; [ exact A | ].
  exact (unused_parameters_inert default_config Scenario.other_config A
           Scenario.long_ticks init).
Defined.

(** ** The activation gate (step 2) *)

(** Refutes C1 as worded: after the two ticks that activate the engine, a
    calm tick (velocity 0.45 under the threshold 0.5) leaves [is_active]
    set and the levels populated. *)
Lemma gate_keeps_engine_active :
  exists s outs,
    run default_config init Scenario.caged_ticks = Return (s, outs) /\
    ~ spec_gate_deactivates default_config s Scenario.t2_calm.
Proof.
  eexists; eexists; split; [ vm_compute; reflexivity | ].
  intros H.
  edestruct H as (s' & Hs' & Hact & _).
  - vm_compute; reflexivity.
  - vm_compute; reflexivity.
  - split; reflexivity.
  - vm_compute in Hs'. injection Hs' as <-. discriminate Hact.
Qed.

(** C1, amended — On a tick whose smoothed velocity after the update is
    strictly below the threshold, while the engine is active and flat, no
    instruction is emitted, the engine stays active, and the cage is
    re-centred on that tick's mid price (buy level mid + gap, sell level
    mid − gap); both levels are unset only when that mid price is zero. *)
Theorem gate_recentres_cage
        (config : StraddleConfig) (s : StraddleLogic) (tick : MarketData)
        (v : float) :
  update_velocity s tick = Return v ->
  below_threshold config v = true ->
  is_Caged s ->
  on_tick config s tick = Return (recentred config tick v, None).
Proof.
  intros Hv Hlow [Hact Hflat].
  rewrite (on_tick_unfold config s tick v Hv).
  unfold dispatch, below_threshold in *; simpl.
  rewrite Hlow, Hact, Hflat.
  unfold reset_cage, recentred, gap; simpl.
  destruct (truthy (mid tick)); unfold set_cage; simpl;
    rewrite ?Hact, ?Hflat; reflexivity.
Qed.

Lemma gate_recentres_cage_witness :
  exists s outs,
    run default_config init Scenario.caged_ticks = Return (s, outs) /\
    on_tick default_config s Scenario.t2_calm =
    Return (recentred default_config Scenario.t2_calm 0.45000000000015028,
            None).
Proof.
  eexists; eexists; split; [ vm_compute; reflexivity | ].
  apply gate_recentres_cage.
  - vm_compute; reflexivity.
  - vm_compute; reflexivity.
  - split; reflexivity.
Defined.

(** ** The four states along a run *)

Section Invariant.

Variable config : StraddleConfig.

Lemma reset_cage_populates (s : StraddleLogic) (p : float) :
  truthy p = true -> cage_populated (reset_cage config s (Some p)).
Proof.
  intros Hp. unfold reset_cage. rewrite Hp.
  split; simpl; discriminate.
Qed.

Lemma trail_buy_populated (tick : MarketData) (s : StraddleLogic) :
  cage_populated s -> cage_populated (trail_buy config tick s).
Proof.
  unfold trail_buy, cage_populated. intros [Hb Hs].
  repeat split_match; simpl; split; congruence.
Qed.

Lemma trail_sell_populated (tick : MarketData) (s : StraddleLogic) :
  cage_populated s -> cage_populated (trail_sell config tick s).
Proof.
  unfold trail_sell, cage_populated. intros [Hb Hs].
  repeat split_match; simpl; split; congruence.
Qed.

Lemma manage_cage_populated (s : StraddleLogic) (tick : MarketData) :
  cage_populated s -> cage_populated (fst (_manage_cage config s tick)).
Proof.
  intros H. unfold _manage_cage.
  pose proof (trail_sell_populated tick _ (trail_buy_populated tick _ H)) as P.
  repeat split_match; exact P.
Qed.

Lemma manage_position_populated (s : StraddleLogic) (tick : MarketData) :
  nonzero_mid tick ->
  cage_populated s -> cage_populated (fst (_manage_position config s tick)).
Proof.
  intros Hmid H. unfold _manage_position.
  repeat split_match; auto; apply reset_cage_populates; exact Hmid.
Qed.

(** One step of [dispatch] keeps the invariant. *)
Lemma dispatch_invariant (s : StraddleLogic) (tick : MarketData) :
  engine_invariant s -> engine_invariant (fst (dispatch config s tick)).
Proof.
  intros [Hpos Hidle]. unfold dispatch.
  destruct (velocity s <? velocity_threshold_pips config)%float.
  - destruct (is_active s) eqn:Ha, (active_position s) eqn:Hp; simpl;
      try (unfold engine_invariant; rewrite Ha, Hp; split; assumption).
    destruct (reset_cage_frame config s None) as (P & _ & _ & A).
    split; intros H; congruence.
  - set (s1 := if is_active s then s
               else reset_cage config (set_active s true) (Some (mid tick))).
    assert (A1 : is_active s1 = true).
    { subst s1. destruct (is_active s) eqn:Ha; auto.
      destruct (reset_cage_frame config (set_active s true) (Some (mid tick)))
        as (_ & _ & _ & A); auto. }
    assert (A' : is_active
                   (fst (match active_position s1 with
                         | Some _ => _manage_position config s1 tick
                         | None => _manage_cage config s1 tick
                         end)) = true).
    { destruct (active_position s1).
      - destruct (manage_position_frame config s1 tick) as (_ & _ & A).
        simpl in A. congruence.
      - destruct (manage_cage_frame config s1 tick) as (_ & _ & A).
        simpl in A. congruence. }
    split; intros H; [ exact A' | congruence ].
Qed.

Lemma dispatch_caged (s : StraddleLogic) (tick : MarketData) :
  last_tick s = Some tick -> nonzero_mid tick ->
  caged_when_active s -> caged_when_active (fst (dispatch config s tick)).
Proof.
  intros Hlast Hmid Hc. unfold dispatch.
  destruct (velocity s <? velocity_threshold_pips config)%float.
  - destruct (is_active s) eqn:Ha, (active_position s) eqn:Hp; simpl;
      try (intros H; apply Hc; congruence).
    intros _. unfold reset_cage. rewrite Hlast.
    fold (reset_cage config s (Some (mid tick))).
    apply reset_cage_populates; exact Hmid.
  - set (s1 := if is_active s then s
               else reset_cage config (set_active s true) (Some (mid tick))).
    assert (P1 : cage_populated s1).
    { subst s1. destruct (is_active s) eqn:Ha; auto.
      apply reset_cage_populates; exact Hmid. }
    intros _. destruct (active_position s1).
    + apply manage_position_populated; assumption.
    + apply manage_cage_populated; assumption.
Qed.

Lemma on_tick_invariant (s s' : StraddleLogic) (tick : MarketData)
      (out : option Instruction) :
  on_tick config s tick = Return (s', out) ->
  engine_invariant s -> engine_invariant s'.
Proof.
  intros H I.
  destruct (on_tick_returns config s tick) as (v & s1 & o1 & _ & H1 & D & _).
  rewrite H in H1. injection H1 as -> ->.
  change s1 with (fst (s1, o1)). rewrite <- D.
  apply dispatch_invariant. exact I.
Qed.

Lemma on_tick_caged (s s' : StraddleLogic) (tick : MarketData)
      (out : option Instruction) :
  on_tick config s tick = Return (s', out) -> nonzero_mid tick ->
  caged_when_active s -> caged_when_active s'.
Proof.
  intros H Hmid I.
  destruct (on_tick_returns config s tick) as (v & s1 & o1 & _ & H1 & D & _).
  rewrite H in H1. injection H1 as -> ->.
  change s1 with (fst (s1, o1)). rewrite <- D.
  apply dispatch_caged; auto.
Qed.

Lemma run_invariant (ticks : list MarketData) :
  forall s s' outs,
    run config s ticks = Return (s', outs) ->
    engine_invariant s -> engine_invariant s'.
Proof.
  induction ticks as [ | tick rest IH]; simpl; intros s s' outs H I.
  - injection H as -> _. exact I.
  - destruct (on_tick config s tick) as [[s1 o1] | e] eqn:H1; simpl in H;
      [ | discriminate ].
    destruct (run config s1 rest) as [[s2 o2] | e] eqn:H2; simpl in H;
      [ | discriminate ].
    injection H as -> _.
    eapply IH; eauto using on_tick_invariant.
Qed.

Lemma run_caged (ticks : list MarketData) :
  Forall nonzero_mid ticks ->
  forall s s' outs,
    run config s ticks = Return (s', outs) ->
    caged_when_active s -> caged_when_active s'.
Proof.
  induction 1 as [ | tick rest Hmid _ IH]; simpl; intros s s' outs H I.
  - injection H as -> _. exact I.
  - destruct (on_tick config s tick) as [[s1 o1] | e] eqn:H1; simpl in H;
      [ | discriminate ].
    destruct (run config s1 rest) as [[s2 o2] | e] eqn:H2; simpl in H;
      [ | discriminate ].
    injection H as -> _.
    eapply IH; eauto using on_tick_caged.
Qed.

Lemma init_invariant : engine_invariant init /\ caged_when_active init.
Proof.
  unfold engine_invariant, caged_when_active, cage_unset; simpl.
  intuition congruence.
Qed.

End Invariant.

(** Refutes C2 as worded: after the breach the engine is Long, yet both
    levels are still stored, so the cage is populated outside Caged. *)
Lemma cage_outlives_breach :
  exists s outs,
    run default_config init Scenario.long_ticks = Return (s, outs) /\
    is_Long s /\ cage_populated s /\ ~ spec_mutual_exclusion s.
Proof.
  eexists; eexists; split; [ vm_compute; reflexivity | ].
  assert (P : cage_populated
                (mkStraddleLogic (Some 1.1004499999999999%float)
                                 (Some 1.1002000000000001%float)
                                 (Some (mkPosition BUY 1.1005 1.1002000000000001))
                                 (Some Scenario.t2_break)
                                 1.0199999999998877 true))
    by (split; discriminate).
  repeat split; try discriminate.
  - eexists; split; reflexivity.
  - intros (_ & [Hcaged _] & _).
    destruct (Hcaged P) as [_ Hflat]. discriminate Hflat.
Qed.

(** C2, amended — At every point of a tick sequence fed to a fresh engine,
    exactly one of Idle, Caged, Long, Short holds; the levels are unset in
    Idle; a position exists iff the state is Long or Short; and, when no
    tick has a zero mid price, the levels are populated iff the state is
    not Idle: they are kept, unread, while a position is open. *)
Theorem states_along_run
        (config : StraddleConfig) (ticks : list MarketData)
        (s : StraddleLogic) (outs : list (option Instruction)) :
  run config init ticks = Return (s, outs) ->
  exactly_one_state s /\
  (is_Idle s -> cage_unset s) /\
  (active_position s <> None <-> is_Long s \/ is_Short s) /\
  (Forall nonzero_mid ticks -> (cage_populated s <-> ~ is_Idle s)).
Proof.
  intros Hrun.
  destruct init_invariant as [I0 C0].
  pose proof (run_invariant config ticks _ _ _ Hrun I0) as [Hpos Hidle].
  assert (Hact : forall p, active_position s = Some p -> is_active s = true).
  { intros p Hp. apply Hpos. congruence. }
  split; [ | split; [ | split ] ].
  - unfold exactly_one_state, is_Idle, is_Caged, is_Long, is_Short.
    destruct (active_position s) as [p | ] eqn:Hp.
    + pose proof (Hact p eq_refl) as Ha.
      destruct (side p) eqn:Hside.
      * right; right; left. repeat split; eauto;
          try (intros [_ H]; discriminate H).
        intros (_ & q & Hq & Hs). congruence.
      * right; right; right. repeat split; eauto;
          try (intros [_ H]; discriminate H).
        intros (_ & q & Hq & Hs). congruence.
    + destruct (is_active s) eqn:Ha.
      * right; left. repeat split; auto;
          try (intros [H _]; discriminate H);
          intros (_ & q & Hq & _); discriminate Hq.
      * left. repeat split; auto;
          try (intros [H _]; discriminate H).
  - intros [Ha _]. auto.
  - unfold is_Long, is_Short. split.
    + intros Hne. destruct (active_position s) as [p | ] eqn:Hp;
        [ | congruence ].
      pose proof (Hact p eq_refl) as Ha.
      destruct (side p) eqn:Hside; [ left | right ]; eauto.
    + intros [(_ & p & Hp & _) | (_ & p & Hp & _)]; congruence.
  - intros Hmids.
    pose proof (run_caged config ticks Hmids _ _ _ Hrun C0) as Hcaged.
    split.
    + intros [Hb _] [Ha _]. destruct (Hidle Ha) as [Hb' _]. congruence.
    + intros Hnot. apply Hcaged.
      destruct (is_active s) eqn:Ha; auto.
      exfalso. apply Hnot. split; auto.
      destruct (active_position s) as [p | ] eqn:Hp; auto.
      pose proof (Hact p eq_refl). congruence.
Qed.

Lemma states_along_run_witness :
  exists s outs,
    run default_config init Scenario.long_ticks = Return (s, outs) /\
    Forall nonzero_mid Scenario.long_ticks /\
    exactly_one_state s /\
    (is_Idle s -> cage_unset s) /\
    (active_position s <> None <-> is_Long s \/ is_Short s) /\
    (cage_populated s <-> ~ is_Idle s).
Proof.
  eexists; eexists; split; [ vm_compute; reflexivity | ].
  assert (M : Forall nonzero_mid Scenario.long_ticks)
    by (repeat constructor; vm_compute; reflexivity).
  split; [ exact M | ].
  destruct (states_along_run default_config Scenario.long_ticks
              (mkStraddleLogic
                 (Some 1.1004499999999999%float)
                 (Some 1.1002000000000001%float)
                 (Some (mkPosition BUY 1.1005 1.1002000000000001))
                 (Some Scenario.t2_break) 1.0199999999998877 true)
              [None; None; Some (OPEN_BUY 1.1005 1.1002000000000001)])
    as (H1 & H2 & H3 & H4).
  - vm_compute; reflexivity.
  - split; [ exact H1 | ]. split; [ exact H2 | ].
    split; [ exact H3 | exact (H4 M) ].
Defined.

(** ** Cage management (step 5) *)

Section Cage.

Variable config : StraddleConfig.

Lemma ratchets_down_refl (o : option float) : ratchets_down o o.
Proof. left; reflexivity. Qed.

Lemma ratchets_up_refl (o : option float) : ratchets_up o o.
Proof. left; reflexivity. Qed.

Lemma trail_buy_ratchet (tick : MarketData) (s : StraddleLogic) :
  ratchets_down (virtual_buy_stop s)
                (virtual_buy_stop (trail_buy config tick s)).
Proof.
  unfold trail_buy.
  destruct (virtual_buy_stop s) as [b | ] eqn:Hb;
    [ | rewrite Hb; apply ratchets_down_refl ].
  destruct (truthy b && (ask tick + straddle_gap_pips config / 10000 <? b)%float)
    eqn:Hc; [ | rewrite Hb; apply ratchets_down_refl ].
  apply andb_true_iff in Hc as [_ Hlt].
  right. simpl. eauto.
Qed.

Lemma trail_sell_ratchet (tick : MarketData) (s : StraddleLogic) :
  ratchets_up (virtual_sell_stop s)
              (virtual_sell_stop (trail_sell config tick s)).
Proof.
  unfold trail_sell.
  destruct (virtual_sell_stop s) as [b | ] eqn:Hb;
    [ | rewrite Hb; apply ratchets_up_refl ].
  destruct (truthy b && (b <? bid tick - straddle_gap_pips config / 10000)%float)
    eqn:Hc; [ | rewrite Hb; apply ratchets_up_refl ].
  apply andb_true_iff in Hc as [_ Hlt].
  right. simpl. eauto.
Qed.

(** The levels [_manage_cage] leaves are the trailed ones, breach or not. *)
Lemma manage_cage_levels (s : StraddleLogic) (tick : MarketData) :
  let s1 := trail_sell config tick (trail_buy config tick s) in
  let s' := fst (_manage_cage config s tick) in
  virtual_buy_stop s' = virtual_buy_stop s1 /\
  virtual_sell_stop s' = virtual_sell_stop s1.
Proof.
  unfold _manage_cage; simpl.
  repeat split_match; auto.
Qed.

Lemma manage_cage_ratchet (s : StraddleLogic) (tick : MarketData) :
  let s' := fst (_manage_cage config s tick) in
  ratchets_down (virtual_buy_stop s) (virtual_buy_stop s') /\
  ratchets_up (virtual_sell_stop s) (virtual_sell_stop s').
Proof.
  destruct (manage_cage_levels s tick) as [Hb Hs]. simpl in *.
  rewrite Hb, Hs.
  destruct (trail_sell_frame config tick (trail_buy config tick s))
    as (Hb' & _).
  destruct (trail_buy_frame config tick s) as (Hs' & _).
  simpl in *. rewrite Hb'. split.
  - apply trail_buy_ratchet.
  - rewrite <- Hs'. apply trail_sell_ratchet.
Qed.

(** A Caged engine whose gate is open hands the tick to [_manage_cage]. *)
Lemma on_tick_caged_open (s : StraddleLogic) (tick : MarketData) (v : float) :
  is_Caged s ->
  update_velocity s tick = Return v ->
  below_threshold config v = false ->
  on_tick config s tick =
  Return (_manage_cage config (set_last_tick (set_velocity s v) tick) tick).
Proof.
  intros [Ha Hp] Hv Hgate.
  rewrite (on_tick_unfold config s tick v Hv).
  unfold dispatch, below_threshold in *; simpl.
  rewrite Hgate, Ha; simpl. rewrite Hp. reflexivity.
Qed.

Lemma on_tick_ratchet (s s' : StraddleLogic) (tick : MarketData)
      (out : option Instruction) :
  is_Caged s ->
  on_tick config s tick = Return (s', out) ->
  below_threshold config (velocity s') = false ->
  ratchets_down (virtual_buy_stop s) (virtual_buy_stop s') /\
  ratchets_up (virtual_sell_stop s) (virtual_sell_stop s').
Proof.
  intros Hc H Hgate.
  destruct (on_tick_returns config s tick) as (v & s1 & o1 & Hv & H1 & _ & V & _).
  rewrite H in H1. injection H1 as <- <-. subst v.
  rewrite (on_tick_caged_open s tick _ Hc Hv Hgate) in H.
  injection H as H. 
  pose proof (manage_cage_ratchet
                (set_last_tick (set_velocity s (velocity s')) tick) tick) as R.
  rewrite H in R. exact R.
Qed.

End Cage.

(** Refutes C3 as worded: the calm tick arrives while the engine is Caged
    and leaves it Caged, but the buy level rises from 1.10045 to 1.10046
    (and the sell level with it). *)
Lemma calm_tick_raises_buy_level :
  exists s outs,
    run default_config init Scenario.caged_ticks = Return (s, outs) /\
    ~ spec_ratchet default_config s Scenario.t2_calm.
Proof.
  eexists; eexists; split; [ vm_compute; reflexivity | ].
  intros H.
  edestruct H as [Hdown _].
  - split; reflexivity.
  - vm_compute; reflexivity.
  - split; reflexivity.
  - simpl in Hdown.
    destruct Hdown as [E | (o & n & Eo & En & Hlt)].
    + apply some_eq in E.
      apply (f_equal (fun z => (z <? 1.10046)%float)) in E.
      vm_compute in E. discriminate E.
    + apply some_eq in Eo, En. subst o n.
      vm_compute in Hlt. discriminate Hlt.
Qed.

(** C3, amended — Along any tick sequence, every tick that is processed
    from a Caged state and whose smoothed velocity after the update is not
    below the threshold leaves the buy level unchanged or strictly lower
    and the sell level unchanged or strictly higher (a tick below the
    threshold instead re-centres the cage on its mid price). *)
Theorem cage_ratchet
        (config : StraddleConfig) (ticks : list MarketData) :
  forall (s : StraddleLogic) (i : nat) (before after : StraddleLogic),
    nth_error (states config s ticks) i = Some before ->
    nth_error (states config s ticks) (S i) = Some after ->
    is_Caged before ->
    below_threshold config (velocity after) = false ->
    ratchets_down (virtual_buy_stop before) (virtual_buy_stop after) /\
    ratchets_up (virtual_sell_stop before) (virtual_sell_stop after).
Proof.
  induction ticks as [ | tick rest IH]; intros s i before after Hi Hj Hc Hg.
  - destruct i as [ | [ | i]]; discriminate Hj.
  - simpl in Hi, Hj.
    destruct (on_tick config s tick) as [[s1 o1] | e] eqn:H1.
    + destruct i as [ | i].
      * injection Hi as <-.
        destruct rest; simpl in Hj; injection Hj as <-;
          eapply on_tick_ratchet; eauto.
      * simpl in Hi. eapply IH; eauto.
    + destruct i as [ | [ | i]]; discriminate Hj.
Qed.

Lemma cage_ratchet_witness :
  exists before after,
    nth_error (states default_config init Scenario.long_ticks) 2 = Some before /\
    nth_error (states default_config init Scenario.long_ticks) 3 = Some after /\
    is_Caged before /\
    below_threshold default_config (velocity after) = false /\
    ratchets_down (virtual_buy_stop before) (virtual_buy_stop after) /\
    ratchets_up (virtual_sell_stop before) (virtual_sell_stop after).
Proof.
  eexists; eexists.
  split; [ vm_compute; reflexivity | ].
  split; [ vm_compute; reflexivity | ].
  assert (C : is_Caged
                (mkStraddleLogic (Some 1.1004499999999999%float)
                                 (Some 1.10005%float) None
                                 (Some Scenario.t1)
                                 0.59999999999993392 true))
    by (split; reflexivity).
  split; [ exact C | ].
  split; [ vm_compute; reflexivity | ].
  apply (cage_ratchet default_config Scenario.long_ticks init 2).
  - vm_compute; reflexivity.
  - vm_compute; reflexivity.
  - exact C.
  - vm_compute; reflexivity.
Defined.

(** C8 — While Caged, after trailing: if the ask is at or above the buy
    level, the engine opens a long at the ask with stop-loss ask −
    stop-loss distance (it emits [OPEN_BUY] and is Long afterwards);
    otherwise, if the bid is at or below the sell level, it opens a short
    at the bid with stop-loss bid + stop-loss distance ([OPEN_SELL],
    Short).  The buy test comes first, so the buy side wins when both
    hold.  A level counts once it is set, as the code tests it: not
    [None] and not zero. *)
Theorem breach_opens_position
        (config : StraddleConfig) (s : StraddleLogic) (tick : MarketData)
        (v : float) :
  is_Caged s ->
  update_velocity s tick = Return v ->
  below_threshold config v = false ->
  let trailed :=
    trail_sell config tick
      (trail_buy config tick (set_last_tick (set_velocity s v) tick)) in
  let long_stop := (ask tick - stop_loss_pips config / 10000)%float in
  let short_stop := (bid tick + stop_loss_pips config / 10000)%float in
  (forall b,
      virtual_buy_stop trailed = Some b -> truthy b = true ->
      (b <=? ask tick)%float = true ->
      exists s',
        on_tick config s tick =
        Return (s', Some (OPEN_BUY (ask tick) long_stop)) /\
        is_Long s' /\
        active_position s' = Some (mkPosition BUY (ask tick) long_stop)) /\
  (forall b,
      virtual_sell_stop trailed = Some b -> truthy b = true ->
      (bid tick <=? b)%float = true ->
      (forall b', virtual_buy_stop trailed = Some b' ->
                  (b' <=? ask tick)%float = false) ->
      exists s',
        on_tick config s tick =
        Return (s', Some (OPEN_SELL (bid tick) short_stop)) /\
        is_Short s' /\
        active_position s' = Some (mkPosition SELL (bid tick) short_stop)).
Proof.
  intros Hc Hv Hgate trailed long_stop short_stop.
  rewrite (on_tick_caged_open config s tick v Hc Hv Hgate).
  destruct Hc as [Ha _].
  assert (At : is_active trailed = true).
  { subst trailed.
    destruct (trail_sell_frame config tick
                (trail_buy config tick (set_last_tick (set_velocity s v) tick)))
      as (_ & _ & _ & _ & A1).
    destruct (trail_buy_frame config tick
                (set_last_tick (set_velocity s v) tick))
      as (_ & _ & _ & _ & A2).
    simpl in *. congruence. }
  unfold _manage_cage. fold trailed.
  split.
  - intros b Hb Ht Hle.
    unfold buy_breached. rewrite Hb, Ht, Hle. simpl.
    eexists; split; [ reflexivity | ].
    split; [ | reflexivity ].
    split; [ exact At | ]. eexists; split; reflexivity.
  - intros b Hb Ht Hle Hbuy.
    assert (Hno : buy_breached tick trailed = false).
    { unfold buy_breached.
      destruct (virtual_buy_stop trailed) as [b' | ]; [ | reflexivity ].
      rewrite (Hbuy b' eq_refl). apply andb_false_r. }
    rewrite Hno. unfold sell_breached. rewrite Hb, Ht, Hle. simpl.
    eexists; split; [ reflexivity | ].
    split; [ | reflexivity ].
    split; [ exact At | ]. eexists; split; reflexivity.
Qed.

Lemma breach_opens_position_witness :
  exists s outs s',
    run default_config init Scenario.caged_ticks = Return (s, outs) /\
    on_tick default_config s Scenario.t2_break =
    Return (s', Some (OPEN_BUY 1.1005 (1.1005 - 3.0 / 10000)%float)) /\
    is_Long s' /\
    active_position s' =
    Some (mkPosition BUY 1.1005 (1.1005 - 3.0 / 10000)%float).
Proof.
  eexists; eexists.
  assert (R : run default_config init Scenario.caged_ticks =
              Return (mkStraddleLogic (Some 1.1004499999999999%float)
                                      (Some 1.10005%float) None
                                      (Some Scenario.t1)
                                      0.59999999999993392 true,
                      [None; None]))
    by (vm_compute; reflexivity).
  assert (C : is_Caged
                (mkStraddleLogic (Some 1.1004499999999999%float)
                                 (Some 1.10005%float) None
                                 (Some Scenario.t1)
                                 0.59999999999993392 true))
    by (split; reflexivity).
  destruct (breach_opens_position default_config _ Scenario.t2_break
              1.0199999999998877 C) as [Hbuy _].
  - vm_compute; reflexivity.
  - vm_compute; reflexivity.
  - destruct (Hbuy 1.1004499999999999%float) as (s' & H1 & H2 & H3).
    + vm_compute; reflexivity.
    + vm_compute; reflexivity.
    + vm_compute; reflexivity.
    + exists s'. split; [ exact R | ]. split; [ exact H1 | ].
      split; [ exact H2 | exact H3 ].
Defined.

(** ** Position management (step 4) *)

Section PositionManagement.

Variable config : StraddleConfig.

(** [_manage_position] by cases, in the specification's terms: the hard
    stop, else the trailing update, else nothing. *)
Lemma manage_position_cases (s : StraddleLogic) (tick : MarketData)
      (p : Position) :
  active_position s = Some p ->
  _manage_position config s tick =
  if hard_stop_hit p tick then
    (reset_cage config (set_position s None) (Some (mid tick)),
     Some (close_of (side p)))
  else if trail_due config p tick then
    (set_position s
       (Some (mkPosition (side p) (entry p) (candidate_stop config p tick))),
     Some (MODIFY_SL (candidate_stop config p tick)))
  else (s, None).
Proof.
  intros Hp.
  unfold _manage_position, hard_stop_hit, trail_due, strictly_tighter,
    candidate_stop, unrealized_profit.
  rewrite Hp.
  destruct (side p); simpl.
  - destruct (bid tick <=? sl p)%float; [ reflexivity | ].
    destruct (trailing_start_pips config * pips <? bid tick - entry p)%float;
      [ rewrite andb_true_r | rewrite andb_false_r; reflexivity ].
    destruct (sl p <? bid tick - trailing_step_pips config * pips)%float;
      reflexivity.
  - destruct (sl p <=? ask tick)%float; [ reflexivity | ].
    destruct (trailing_start_pips config * pips <? entry p - ask tick)%float;
      [ rewrite andb_true_r | rewrite andb_false_r; reflexivity ].
    destruct (ask tick + trailing_step_pips config * pips <? sl p)%float;
      reflexivity.
Qed.

(** With a position open and the velocity below the threshold, the tick
    only refreshes the velocity and the stored observation. *)
Lemma on_tick_position_gated (s : StraddleLogic) (tick : MarketData)
      (p : Position) (v : float) :
  active_position s = Some p ->
  update_velocity s tick = Return v ->
  below_threshold config v = true ->
  on_tick config s tick =
  Return (set_last_tick (set_velocity s v) tick, None).
Proof.
  intros Hp Hv Hgate.
  rewrite (on_tick_unfold config s tick v Hv).
  unfold dispatch, below_threshold in *; simpl.
  rewrite Hgate, Hp. destruct (is_active s); reflexivity.
Qed.

(** With a position open and the gate open, the tick goes to
    [_manage_position], on a state that is active and carries the updated
    velocity and the tick. *)
Lemma on_tick_position_open (s : StraddleLogic) (tick : MarketData)
      (p : Position) (v : float) :
  active_position s = Some p ->
  update_velocity s tick = Return v ->
  below_threshold config v = false ->
  exists s2,
    on_tick config s tick = Return (_manage_position config s2 tick) /\
    active_position s2 = Some p /\ is_active s2 = true /\
    velocity s2 = v /\ last_tick s2 = Some tick /\
    (is_active s = true -> s2 = set_last_tick (set_velocity s v) tick).
Proof.
  intros Hp Hv Hgate.
  rewrite (on_tick_unfold config s tick v Hv).
  unfold dispatch, below_threshold in *; simpl.
  rewrite Hgate.
  destruct (is_active s) eqn:Ha.
  - simpl. rewrite Hp.
    exists (set_last_tick (set_velocity s v) tick). simpl. auto 10.
  - set (s1 := set_last_tick (set_velocity s v) tick).
    destruct (reset_cage_frame config (set_active s1 true) (Some (mid tick)))
      as (P & L & V & A).
    simpl in P, L, V, A.
    rewrite P, Hp.
    exists (reset_cage config (set_active s1 true) (Some (mid tick))).
    repeat split; auto. congruence. discriminate.
Qed.

(** Closing re-centres the cage on the tick's mid price. *)
Lemma close_recentres (s2 : StraddleLogic) (tick : MarketData) (v : float) :
  is_active s2 = true -> velocity s2 = v -> last_tick s2 = Some tick ->
  reset_cage config (set_position s2 None) (Some (mid tick)) =
  recentred config tick v.
Proof.
  intros A V L. unfold reset_cage, recentred, gap, set_cage; simpl.
  rewrite A, V, L. destruct (truthy (mid tick)); reflexivity.
Qed.

End PositionManagement.

(** Refutes C4 as worded: the engine is Long with its stop at 1.1002 and
    the velocity has decayed under the threshold; a tick with bid 1.1001
    is not put through [_manage_position] and returns no instruction. *)
Lemma quiet_tick_skips_position_management :
  exists s outs p s',
    run default_config init Scenario.quiet_long_ticks = Return (s, outs) /\
    is_Long s /\ active_position s = Some p /\
    (bid Scenario.t5_drop <=? sl p)%float = true /\
    on_tick default_config s Scenario.t5_drop = Return (s', None) /\
    active_position s' = Some p /\
    ~ spec_position_always_managed default_config s Scenario.t5_drop.
Proof.
  eexists; eexists; eexists; eexists.
  split; [ vm_compute; reflexivity | ].
  split; [ split; [ reflexivity | eexists; split; reflexivity ] | ].
  split; [ reflexivity | ].
  split; [ vm_compute; reflexivity | ].
  split; [ vm_compute; reflexivity | ].
  split; [ reflexivity | ].
  intros H.
  specialize (H _ 0.35075999999996066%float eq_refl).
  assert (Hv : update_velocity
                 (mkStraddleLogic (Some 1.1004499999999999%float)
                                  (Some 1.1002000000000001%float)
                                  (Some (mkPosition BUY 1.1005 1.1002000000000001))
                                  (Some Scenario.t4)
                                  0.4997999999999449 true)
                 Scenario.t5_drop = Return 0.35075999999996066%float)
    by (vm_compute; reflexivity).
  specialize (H Hv).
  apply (f_equal (fun r => match r with
                           | Return (_, Some _) => true
                           | _ => false
                           end)) in H.
  vm_compute in H. discriminate H.
Qed.

(** C4, amended — While a position is open (Long or Short), a tick is put
    through the position-management rule exactly when its smoothed
    velocity after the update is not below the threshold; a tick below
    the threshold only refreshes the velocity and the stored observation
    and returns no instruction, whatever its bid and ask, so the position
    and its stop stay as they are. *)
Theorem position_managed_when_gate_open
        (config : StraddleConfig) (s : StraddleLogic) (tick : MarketData)
        (v : float) :
  is_Long s \/ is_Short s ->
  update_velocity s tick = Return v ->
  let s1 := set_last_tick (set_velocity s v) tick in
  (below_threshold config v = false ->
   on_tick config s tick = Return (_manage_position config s1 tick)) /\
  (below_threshold config v = true ->
   on_tick config s tick = Return (s1, None) /\
   active_position s1 = active_position s).
Proof.
  intros Hopen Hv s1.
  assert (Hp : exists p, active_position s = Some p /\ is_active s = true).
  { destruct Hopen as [(A & p & Hp & _) | (A & p & Hp & _)]; eauto. }
  destruct Hp as (p & Hp & Ha).
  split; intros Hgate.
  - destruct (on_tick_position_open config s tick p v Hp Hv Hgate)
      as (s2 & H & _ & _ & _ & _ & E).
    rewrite H, (E Ha). reflexivity.
  - split; [ | reflexivity ].
    exact (on_tick_position_gated config s tick p v Hp Hv Hgate).
Qed.

Lemma position_managed_when_gate_open_witness :
  exists s outs,
    run default_config init Scenario.long_ticks = Return (s, outs) /\
    on_tick default_config s Scenario.t3_stop =
    Return (_manage_position default_config
              (set_last_tick (set_velocity s 1.6139999999991561) Scenario.t3_stop)
              Scenario.t3_stop).
Proof.
  eexists; eexists; split; [ vm_compute; reflexivity | ].
  refine (proj1 (position_managed_when_gate_open default_config _
                   Scenario.t3_stop 1.6139999999991561 _ _) _).
  - left. split; [ reflexivity | eexists; split; reflexivity ].
  - vm_compute; reflexivity.
  - vm_compute; reflexivity.
Defined.

(** Refutes C6 as worded: the same quiet tick has its bid under the
    long's stop, and the engine neither closes nor reseeds. *)
Lemma quiet_tick_skips_hard_stop :
  exists s outs,
    run default_config init Scenario.quiet_long_ticks = Return (s, outs) /\
    ~ spec_close_reseeds default_config s Scenario.t5_drop.
Proof.
  eexists; eexists; split; [ vm_compute; reflexivity | ].
  intros H.
  edestruct H as (s' & Hs' & _).
  - reflexivity.
  - vm_compute; reflexivity.
  - apply (f_equal (fun r => match r with
                             | Return (_, Some _) => true
                             | _ => false
                             end)) in Hs'.
    vm_compute in Hs'. discriminate Hs'.
Qed.

(** C6, amended — Whenever the hard stop is hit while a position is open
    (bid ≤ stop for a long, ask ≥ stop for a short) on a tick whose
    smoothed velocity after the update is not below the threshold, the
    engine emits the matching [CLOSE_BUY] or [CLOSE_SELL], clears the
    position and is Caged, never Idle, afterwards; the fresh levels are
    mid + gap and mid − gap around the closing tick's mid price when that
    mid price is not zero, and unset when it is zero. *)
Theorem hard_stop_reseeds_cage
        (config : StraddleConfig) (s : StraddleLogic) (tick : MarketData)
        (p : Position) (v : float) :
  active_position s = Some p ->
  hard_stop_hit p tick = true ->
  update_velocity s tick = Return v ->
  below_threshold config v = false ->
  exists s',
    on_tick config s tick = Return (s', Some (close_of (side p))) /\
    s' = recentred config tick v /\
    is_Caged s' /\
    (nonzero_mid tick ->
     virtual_buy_stop s' = Some (mid tick + gap config)%float /\
     virtual_sell_stop s' = Some (mid tick - gap config)%float) /\
    (truthy (mid tick) = false -> cage_unset s').
Proof.
  intros Hp Hhit Hv Hgate.
  destruct (on_tick_position_open config s tick p v Hp Hv Hgate)
    as (s2 & H & P2 & A2 & V2 & L2 & _).
  rewrite (manage_position_cases config s2 tick p P2), Hhit in H.
  rewrite (close_recentres config s2 tick v A2 V2 L2) in H.
  exists (recentred config tick v).
  split; [ exact H | ]. split; [ reflexivity | ].
  unfold recentred, nonzero_mid, is_Caged, cage_unset.
  destruct (truthy (mid tick)); simpl; repeat split; auto; discriminate.
Qed.

Lemma hard_stop_reseeds_cage_witness :
  exists s outs s',
    run default_config init Scenario.long_ticks = Return (s, outs) /\
    on_tick default_config s Scenario.t3_stop = Return (s', Some CLOSE_BUY) /\
    s' = recentred default_config Scenario.t3_stop 1.6139999999991561 /\
    is_Caged s' /\
    (nonzero_mid Scenario.t3_stop ->
     virtual_buy_stop s' =
     Some (mid Scenario.t3_stop + gap default_config)%float /\
     virtual_sell_stop s' =
     Some (mid Scenario.t3_stop - gap default_config)%float) /\
    (truthy (mid Scenario.t3_stop) = false -> cage_unset s').
Proof.
  eexists; eexists.
  assert (R : run default_config init Scenario.long_ticks =
              Return (mkStraddleLogic
                        (Some 1.1004499999999999%float)
                        (Some 1.1002000000000001%float)
                        (Some (mkPosition BUY 1.1005 1.1002000000000001))
                        (Some Scenario.t2_break) 1.0199999999998877 true,
                      [None; None;
                       Some (OPEN_BUY 1.1005 1.1002000000000001)]))
    by (vm_compute; reflexivity).
  destruct (hard_stop_reseeds_cage default_config
              (mkStraddleLogic
                 (Some 1.1004499999999999%float)
                 (Some 1.1002000000000001%float)
                 (Some (mkPosition BUY 1.1005 1.1002000000000001))
                 (Some Scenario.t2_break) 1.0199999999998877 true)
              Scenario.t3_stop
              (mkPosition BUY 1.1005 1.1002000000000001)
              1.6139999999991561) as (s' & H).
  - reflexivity.
  - vm_compute; reflexivity.
  - vm_compute; reflexivity.
  - vm_compute; reflexivity.
  - exists s'. split; [ exact R | exact H ].
Defined.

(** Refutes C7 as worded: the long (entry 1.1005, stop 1.1002) sees a bid
    of 1.1010, five pips of profit and a candidate stop of 1.10095, but
    the velocity is under the threshold and no [MODIFY_SL] is emitted. *)
Lemma quiet_tick_skips_trailing :
  exists s outs,
    run default_config init Scenario.quiet_long_ticks = Return (s, outs) /\
    ~ spec_trailing default_config s Scenario.t5_rise.
Proof.
  eexists; eexists; split; [ vm_compute; reflexivity | ].
  intros H.
  edestruct H as [_ Hm].
  - reflexivity.
  - vm_compute; reflexivity.
  - vm_compute in Hm. discriminate Hm.
Qed.

(** C7, amended — For the life of an open position the recorded stop-loss
    only moves in the favourable direction (it stays, or strictly rises
    for a long, or strictly falls for a short), and [MODIFY_SL] is emitted
    exactly when the tick's smoothed velocity after the update is not
    below the threshold, the hard stop is not hit, the candidate stop (bid
    − trailing step for a long, ask + trailing step for a short) is
    strictly tighter than the current stop and the unrealized profit
    exceeds the trailing-activation distance; the instruction carries the
    candidate, which becomes the recorded stop. *)
Theorem trailing_stop_rule
        (config : StraddleConfig) (s : StraddleLogic) (tick : MarketData)
        (p : Position) (v : float) :
  active_position s = Some p ->
  update_velocity s tick = Return v ->
  exists s' out,
    on_tick config s tick = Return (s', out) /\
    (forall p', active_position s' = Some p' -> stop_not_worse p p') /\
    is_modify_sl out =
    negb (below_threshold config v) && negb (hard_stop_hit p tick) &&
    trail_due config p tick /\
    (forall x,
        out = Some (MODIFY_SL x) ->
        x = candidate_stop config p tick /\
        exists p', active_position s' = Some p' /\ sl p' = x).
Proof.
  intros Hp Hv.
  assert (Hsame : stop_not_worse p p).
  { repeat split; auto. }
  destruct (below_threshold config v) eqn:Hgate.
  - rewrite (on_tick_position_gated config s tick p v Hp Hv Hgate).
    eexists; eexists; split; [ reflexivity | ]. simpl.
    split; [ | split; [ reflexivity | discriminate ] ].
    intros p' Hp'. rewrite Hp in Hp'. apply some_eq in Hp'. subst p'.
    exact Hsame.
  - destruct (on_tick_position_open config s tick p v Hp Hv Hgate)
      as (s2 & H & P2 & A2 & _).
    rewrite (manage_position_cases config s2 tick p P2) in H.
    rewrite H. simpl.
    destruct (hard_stop_hit p tick) eqn:Hhit.
    + eexists; eexists; split; [ reflexivity | ]. simpl.
      split; [ | split ].
      * intros p' Hp'.
        destruct (reset_cage_frame config (set_position s2 None)
                    (Some (mid tick))) as (P & _).
        simpl in P. rewrite P in Hp'. discriminate Hp'.
      * destruct (side p); reflexivity.
      * intros x Hx. destruct (side p); discriminate Hx.
    + destruct (trail_due config p tick) eqn:Hdue.
      * eexists; eexists; split; [ reflexivity | ]. simpl.
        split; [ | split; [ reflexivity | ] ].
        -- intros p' Hp'. apply some_eq in Hp'. subst p'. simpl.
           repeat split; auto. right.
           unfold trail_due, strictly_tighter in Hdue.
           apply andb_true_iff in Hdue as [Ht _].
           destruct (side p); exact Ht.
        -- intros x Hx. apply some_eq in Hx.
           assert (E : x = candidate_stop config p tick).
           { exact (f_equal (fun i => match i with
                                      | MODIFY_SL y => y
                                      | _ => x
                                      end) (eq_sym Hx)). }
           split; [ exact E | ]. eexists; split; [ reflexivity | ].
           simpl. auto.
      * eexists; eexists; split; [ reflexivity | ]. simpl.
        split; [ | split; [ reflexivity | discriminate ] ].
        intros p' Hp'. rewrite P2 in Hp'. apply some_eq in Hp'. subst p'.
        exact Hsame.
Qed.

Lemma trailing_stop_rule_witness :
  exists s outs s' out,
    run default_config init Scenario.long_ticks = Return (s, outs) /\
    on_tick default_config s Scenario.t3_rise = Return (s', out) /\
    is_modify_sl out = true.
Proof.
  eexists; eexists.
  assert (R : run default_config init Scenario.long_ticks =
              Return (mkStraddleLogic
                        (Some 1.1004499999999999%float)
                        (Some 1.1002000000000001%float)
                        (Some (mkPosition BUY 1.1005 1.1002000000000001))
                        (Some Scenario.t2_break) 1.0199999999998877 true,
                      [None; None;
                       Some (OPEN_BUY 1.1005 1.1002000000000001)]))
    by (vm_compute; reflexivity).
  destruct (trailing_stop_rule default_config
              (mkStraddleLogic
                 (Some 1.1004499999999999%float)
                 (Some 1.1002000000000001%float)
                 (Some (mkPosition BUY 1.1005 1.1002000000000001))
                 (Some Scenario.t2_break) 1.0199999999998877 true)
              Scenario.t3_rise
              (mkPosition BUY 1.1005 1.1002000000000001)
              2.5139999999997231)
    as (s' & out & H & _ & M & _).
  - reflexivity.
  - vm_compute; reflexivity.
  - exists s', out. split; [ exact R | ]. split; [ exact H | ].
    rewrite M. vm_compute; reflexivity.
Defined.

(** ** Observations outside the stated domain *)

(** Refutes C5 as worded: a tick with crossed quotes (ask 1.1002 under bid
    1.1003) is processed like any other; the call returns normally, the
    velocity goes from 0 to 0.6 and the cage is set up. *)
Lemma crossed_quotes_are_processed :
  exists s outs s',
    run default_config init [Scenario.t0] = Return (s, outs) /\
    invalid_observation Scenario.t1_crossed = true /\
    on_tick default_config s Scenario.t1_crossed = Return (s', None) /\
    virtual_buy_stop s = None /\ virtual_buy_stop s' <> None /\
    ~ spec_rejects_invalid default_config s Scenario.t1_crossed.
Proof.
  eexists; eexists; eexists.
  split; [ vm_compute; reflexivity | ].
  split; [ vm_compute; reflexivity | ].
  split; [ vm_compute; reflexivity | ].
  split; [ reflexivity | ].
  split; [ discriminate | ].
  intros H.
  destruct H as [(e & He) | (s' & out & Hs' & _ & Hb & _)].
  - vm_compute; reflexivity.
  - apply (f_equal (fun r => match r with
                             | Return _ => true
                             | Raise _ => false
                             end)) in He.
    vm_compute in He. discriminate He.
  - apply (f_equal (fun r => match r with
                             | Return (x, _) => virtual_buy_stop x
                             | Raise _ => None
                             end)) in Hs'.
    cbv beta iota in Hs'. rewrite Hb in Hs'.
    vm_compute in Hs'. discriminate Hs'.
Qed.

(** C5, amended — [on_tick] validates nothing: an observation with ask <
    bid, a negative or zero price, or a non-finite value surfaces no
    condition to the caller.  The call returns normally, with the velocity
    updated by the usual rule, the observation stored as the previous one,
    and the gate, cage and position logic applied to it as to any other
    observation. *)
Theorem invalid_observation_processed
        (config : StraddleConfig) (s : StraddleLogic) (tick : MarketData) :
  invalid_observation tick = true ->
  exists v s' out,
    update_velocity s tick = Return v /\
    on_tick config s tick = Return (s', out) /\
    (s', out) = dispatch config (set_last_tick (set_velocity s v) tick) tick /\
    velocity s' = v /\
    last_tick s' = Some tick.
Proof.
  intros _.
  destruct (on_tick_returns config s tick) as (v & s' & out & Hv & H & D & V & L).
  exists v, s', out. auto 6.
Qed.

Lemma invalid_observation_processed_witness :
  invalid_observation Scenario.t1_crossed = true /\
  exists v s' out,
    update_velocity init Scenario.t1_crossed = Return v /\
    on_tick default_config init Scenario.t1_crossed = Return (s', out) /\
    (s', out) =
    dispatch default_config
             (set_last_tick (set_velocity init v) Scenario.t1_crossed)
             Scenario.t1_crossed /\
    velocity s' = v /\
    last_tick s' = Some Scenario.t1_crossed.
Proof.
  assert (I : invalid_observation Scenario.t1_crossed = true)
    by (vm_compute; reflexivity).
  split; [ exact I | ].
  exact (invalid_observation_processed default_config init
           Scenario.t1_crossed I).
Defined.

(** * Further properties of the engine *)

(** ** More on floats: NaN and the strict order *)

Section NaNFacts.

Local Open Scope float_scope.

Lemma SFcompare_refl (x : spec_float) :
  SFcompare x x = None \/ SFcompare x x = Some Eq.
Proof.
  destruct x as [sg | sg | | sg m e]; simpl; auto.
  - destruct sg; auto.
  - right. rewrite Z.compare_refl.
    change (PosDef.Pos.compare_cont Eq m m) with (Pos.compare m m).
    rewrite Pos.compare_refl. destruct sg; reflexivity.
Qed.

(** No float is strictly below itself. *)
Lemma ltb_irrefl (x : float) : (x <? x) = false.
Proof.
  rewrite ltb_spec. unfold SFltb.
  destruct (SFcompare_refl (Prim2SF x)) as [-> | ->]; reflexivity.
Qed.

Lemma is_nan_spec (x : float) : is_nan x = true <-> Prim2SF x = S754_nan.
Proof.
  unfold is_nan. rewrite FloatAxioms.eqb_spec. unfold SFeqb. split.
  - intros H. destruct (Prim2SF x) as [sg | sg | | sg m e] eqn:E; auto;
      destruct (SFcompare_refl (Prim2SF x)) as [R | R]; rewrite E in R;
      try discriminate R; rewrite R in H; discriminate H.
  - intros ->. reflexivity.
Qed.

(** A NaN is below nothing. *)
Lemma nan_ltb (x y : float) : is_nan x = true -> (x <? y) = false.
Proof. rewrite is_nan_spec, ltb_spec. intros ->. reflexivity. Qed.

(** NaN propagates through the arithmetic of the velocity update. *)
Lemma nan_mul_l (x y : float) : is_nan x = true -> is_nan (x * y) = true.
Proof. rewrite !is_nan_spec, mul_spec. intros ->. reflexivity. Qed.

Lemma nan_add_l (x y : float) : is_nan x = true -> is_nan (x + y) = true.
Proof. rewrite !is_nan_spec, add_spec. intros ->. reflexivity. Qed.

Lemma nan_add_r (x y : float) : is_nan y = true -> is_nan (x + y) = true.
Proof.
  rewrite !is_nan_spec, add_spec. intros ->.
  destruct (Prim2SF x); reflexivity.
Qed.

Lemma nan_sub_l (x y : float) : is_nan x = true -> is_nan (x - y) = true.
Proof. rewrite !is_nan_spec, sub_spec. intros ->. reflexivity. Qed.

Lemma nan_abs (x : float) : is_nan x = true -> is_nan (abs x) = true.
Proof. rewrite !is_nan_spec, abs_spec. intros ->. reflexivity. Qed.

Lemma nan_div_l (x y : float) : is_nan x = true -> is_nan (x / y) = true.
Proof. rewrite !is_nan_spec, div_spec. intros ->. reflexivity. Qed.

End NaNFacts.

(** ** The gate and the activity latch *)



Section Latch.

Variable config : StraddleConfig.

Lemma dispatch_stays_active (s : StraddleLogic) (tick : MarketData) :
  is_active s = true -> is_active (fst (dispatch config s tick)) = true.
Proof.
  intros Ha. unfold dispatch. rewrite Ha.
  destruct (velocity s <? velocity_threshold_pips config)%float.
  - destruct (active_position s); simpl; auto.
    destruct (reset_cage_frame config s None) as (_ & _ & _ & A).
    simpl in A. congruence.
  - destruct (active_position s).
    + destruct (manage_position_frame config s tick) as (_ & _ & A).
      simpl in A. congruence.
    + destruct (manage_cage_frame config s tick) as (_ & _ & A).
      simpl in A. congruence.
Qed.

Lemma on_tick_stays_active (s s' : StraddleLogic) (tick : MarketData)
      (out : option Instruction) :
  is_active s = true ->
  on_tick config s tick = Return (s', out) -> is_active s' = true.
Proof.
  intros Ha H.
  destruct (on_tick_returns config s tick) as (v & s1 & o1 & _ & H1 & D & _).
  rewrite H in H1. apply (f_equal (fun r => match r with
                                            | Return (x, _) => is_active x
                                            | Raise _ => false
                                            end)) in H1.
  simpl in H1. rewrite H1.
  change s1 with (fst (s1, o1)). rewrite <- D.
  apply dispatch_stays_active. exact Ha.
Qed.

End Latch.

(** X2 — The activity flag is a one-way latch: once the engine is active
    it is active after every further tick, whatever the ticks are. *)
Theorem never_deactivates
        (config : StraddleConfig) (ticks : list MarketData) :
  forall (s s' : StraddleLogic) (outs : list (option Instruction)),
    is_active s = true ->
    run config s ticks = Return (s', outs) ->
    is_active s' = true.
Proof.
  induction ticks as [ | tick rest IH]; simpl; intros s s' outs Ha H.
  - apply (f_equal (fun r => match r with
                             | Return (x, _) => is_active x
                             | Raise _ => true
                             end)) in H.
    simpl in H. congruence.
  - destruct (on_tick config s tick) as [[s1 o1] | e] eqn:H1; simpl in H;
      [ | discriminate H ].
    destruct (run config s1 rest) as [[s2 o2] | e] eqn:H2; simpl in H;
      [ | discriminate H ].
    apply (f_equal (fun r => match r with
                             | Return (x, _) => is_active x
                             | Raise _ => true
                             end)) in H.
    simpl in H. rewrite <- H.
    eapply IH; [ | exact H2 ].
    eapply on_tick_stays_active; eauto.
Qed.

Lemma never_deactivates_witness :
  exists s outs s' outs',
    run default_config init Scenario.caged_ticks = Return (s, outs) /\
    is_active s = true /\
    run default_config s [Scenario.t2_calm; Scenario.t3; Scenario.t4] =
    Return (s', outs') /\
    is_active s' = true.
Proof.
  eexists; eexists.
  assert (R : run default_config init Scenario.caged_ticks =
              Return (mkStraddleLogic (Some 1.1004499999999999%float)
                                      (Some 1.10005%float) None
                                      (Some Scenario.t1)
                                      0.59999999999993392 true,
                      [None; None]))
    by (vm_compute; reflexivity).
  destruct (run_returns default_config
              [Scenario.t2_calm; Scenario.t3; Scenario.t4]
              (mkStraddleLogic (Some 1.1004499999999999%float)
                               (Some 1.10005%float) None
                               (Some Scenario.t1)
                               0.59999999999993392 true))
    as (s' & outs' & H).
  exists s', outs'.
  split; [ exact R | ]. split; [ reflexivity | ]. split; [ exact H | ].
  refine (never_deactivates default_config _ _ _ _ _ H). reflexivity.
Defined.

(** X3 — A fresh engine never acts on its first observation when the
    threshold is positive: there is no previous observation, the velocity
    stays 0, and the tick is only stored. *)
Theorem first_tick_is_only_stored
        (config : StraddleConfig) (tick : MarketData) :
  (0 <? velocity_threshold_pips config)%float = true ->
  on_tick config init tick = Return (set_last_tick init tick, None).
Proof.
  intros Hthr.
  unfold on_tick, update_velocity, dispatch; simpl.
  rewrite Hthr. reflexivity.
Qed.

Lemma first_tick_is_only_stored_witness :
  (0 <? velocity_threshold_pips default_config)%float = true /\
  on_tick default_config init Scenario.t0 =
  Return (set_last_tick init Scenario.t0, None).
Proof.
  assert (H : (0 <? velocity_threshold_pips default_config)%float = true)
    by (vm_compute; reflexivity).
  split; [ exact H | ].
  exact (first_tick_is_only_stored default_config Scenario.t0 H).
Defined.

(** X4 — Activation: on a tick whose smoothed velocity is not below the
    threshold and whose mid price is not zero, an Idle engine becomes
    active with its levels seeded at mid + gap and mid − gap and already
    trailed by that same tick: the buy level is mid + gap or strictly
    lower, the sell level is mid − gap or strictly higher. *)
Theorem activation_seeds_cage
        (config : StraddleConfig) (s : StraddleLogic) (tick : MarketData)
        (v : float) :
  is_Idle s ->
  update_velocity s tick = Return v ->
  below_threshold config v = false ->
  nonzero_mid tick ->
  exists s' out,
    on_tick config s tick = Return (s', out) /\
    is_active s' = true /\
    ratchets_down (Some (mid tick + gap config)%float) (virtual_buy_stop s') /\
    ratchets_up (Some (mid tick - gap config)%float) (virtual_sell_stop s').
Proof.
  intros [Ha Hp] Hv Hgate Hmid.
  rewrite (on_tick_unfold config s tick v Hv).
  unfold dispatch, below_threshold in *; simpl.
  rewrite Hgate, Ha.
  set (s2 := reset_cage config
               (set_active (set_last_tick (set_velocity s v) tick) true)
               (Some (mid tick))).
  assert (E : s2 = mkStraddleLogic (Some (mid tick + gap config)%float)
                                   (Some (mid tick - gap config)%float)
                                   None (Some tick) v true).
  { subst s2. unfold reset_cage, set_cage, gap; simpl.
    unfold nonzero_mid in Hmid. rewrite Hmid, Hp. reflexivity. }
  assert (P2 : active_position s2 = None) by (rewrite E; reflexivity).
  rewrite P2.
  destruct (_manage_cage config s2 tick) as [s' out] eqn:M.
  exists s', out. split; [ reflexivity | ].
  destruct (manage_cage_frame config s2 tick) as (_ & _ & A).
  destruct (manage_cage_ratchet config s2 tick) as [Rb Rs].
  rewrite M in A, Rb, Rs. simpl in A, Rb, Rs.
  rewrite E in A, Rb, Rs. simpl in A, Rb, Rs. auto.
Qed.

Lemma activation_seeds_cage_witness :
  exists s outs s' out,
    run default_config init [Scenario.t0] = Return (s, outs) /\
    on_tick default_config s Scenario.t1 = Return (s', out) /\
    is_active s' = true /\
    ratchets_down (Some (mid Scenario.t1 + gap default_config)%float)
                  (virtual_buy_stop s') /\
    ratchets_up (Some (mid Scenario.t1 - gap default_config)%float)
                (virtual_sell_stop s').
Proof.
  eexists; eexists.
  assert (R : run default_config init [Scenario.t0] =
              Return (set_last_tick init Scenario.t0, [None]))
    by (vm_compute; reflexivity).
  destruct (activation_seeds_cage default_config
              (set_last_tick init Scenario.t0) Scenario.t1
              0.59999999999993392) as (s' & out & H).
  - split; reflexivity.
  - vm_compute; reflexivity.
  - vm_compute; reflexivity.
  - vm_compute; reflexivity.
  - exists s', out. split; [ exact R | exact H ].
Defined.

(** ** The instruction stream as a log of the position *)

Section InstructionLog.

Variable config : StraddleConfig.

Lemma manage_cage_log (s : StraddleLogic) (tick : MarketData) :
  active_position s = None ->
  apply_instruction None (snd (_manage_cage config s tick)) =
  Some (active_position (fst (_manage_cage config s tick))).
Proof.
  intros Hp. unfold _manage_cage.
  destruct (trail_sell_frame config tick (trail_buy config tick s))
    as (_ & P1 & _).
  destruct (trail_buy_frame config tick s) as (_ & P2 & _).
  simpl in P1, P2.
  destruct (buy_breached tick _); [ reflexivity | ].
  destruct (sell_breached tick _); [ reflexivity | ].
  simpl. congruence.
Qed.

Lemma manage_position_log (s : StraddleLogic) (tick : MarketData)
      (p : Position) :
  active_position s = Some p ->
  apply_instruction (Some p) (snd (_manage_position config s tick)) =
  Some (active_position (fst (_manage_position config s tick))).
Proof.
  intros Hp. rewrite (manage_position_cases config s tick p Hp).
  destruct (hard_stop_hit p tick).
  - destruct (reset_cage_frame config (set_position s None) (Some (mid tick)))
      as (P & _).
    simpl in *. rewrite P.
    destruct (side p) eqn:Hs; unfold apply_instruction; simpl;
      rewrite ?Hs; reflexivity.
  - destruct (trail_due config p tick); simpl; [ reflexivity | ].
    congruence.
Qed.

Lemma dispatch_log (s : StraddleLogic) (tick : MarketData) :
  apply_instruction (active_position s) (snd (dispatch config s tick)) =
  Some (active_position (fst (dispatch config s tick))).
Proof.
  unfold dispatch.
  destruct (velocity s <? velocity_threshold_pips config)%float.
  - destruct (is_active s), (active_position s) eqn:Hp; simpl;
      try (rewrite Hp; reflexivity).
    destruct (reset_cage_frame config s None) as (P & _).
    simpl in P. congruence.
  - set (s1 := if is_active s then s
               else reset_cage config (set_active s true) (Some (mid tick))).
    assert (P1 : active_position s1 = active_position s).
    { subst s1. destruct (is_active s); auto.
      destruct (reset_cage_frame config (set_active s true) (Some (mid tick)))
        as (P & _); auto. }
    rewrite <- P1.
    destruct (active_position s1) as [p | ] eqn:Hp.
    + apply manage_position_log; exact Hp.
    + apply manage_cage_log; exact Hp.
Qed.

Lemma on_tick_log (s s' : StraddleLogic) (tick : MarketData)
      (out : option Instruction) :
  on_tick config s tick = Return (s', out) ->
  apply_instruction (active_position s) out = Some (active_position s').
Proof.
  intros H.
  destruct (on_tick_returns config s tick) as (v & s1 & o1 & _ & H1 & D & _).
  rewrite H in H1.
  assert (E1 : s' = s1).
  { exact (f_equal (fun r => match r with
                             | Return (x, _) => x
                             | Raise _ => s'
                             end) H1). }
  assert (E2 : out = o1).
  { exact (f_equal (fun r => match r with
                             | Return (_, o) => o
                             | Raise _ => out
                             end) H1). }
  subst s1 o1.
  pose proof (dispatch_log (set_last_tick (set_velocity s v) tick) tick) as L.
  rewrite D in L. exact L.
Qed.

End InstructionLog.

(** X5 — A receiver that only follows the returned instructions always
    knows the engine's position: replaying the instructions of any run
    (open on [OPEN_*], change the stop on [MODIFY_SL], drop on the
    matching [CLOSE_*]) from the position held at the start never meets an
    instruction that does not fit, and ends on the engine's own
    [active_position], with the same side, entry and stop.  So the engine
    never opens over an open position, never closes or modifies when flat,
    and never changes its position without saying so. *)
Theorem instructions_track_position
        (config : StraddleConfig) (ticks : list MarketData) :
  forall (s s' : StraddleLogic) (outs : list (option Instruction)),
    run config s ticks = Return (s', outs) ->
    replay (active_position s) outs = Some (active_position s').
Proof.
  induction ticks as [ | tick rest IH]; simpl; intros s s' outs H.
  - assert (E1 : s = s').
    { exact (f_equal (fun r => match r with
                               | Return (x, _) => x
                               | Raise _ => s
                               end) H). }
    assert (E2 : [] = outs).
    { exact (f_equal (fun r => match r with
                               | Return (_, o) => o
                               | Raise _ => []
                               end) H). }
    subst. reflexivity.
  - destruct (on_tick config s tick) as [[s1 o1] | e] eqn:H1; simpl in H;
      [ | discriminate H ].
    destruct (run config s1 rest) as [[s2 o2] | e] eqn:H2; simpl in H;
      [ | discriminate H ].
    assert (E1 : s2 = s').
    { exact (f_equal (fun r => match r with
                               | Return (x, _) => x
                               | Raise _ => s2
                               end) H). }
    assert (E2 : o1 :: o2 = outs).
    { exact (f_equal (fun r => match r with
                               | Return (_, o) => o
                               | Raise _ => []
                               end) H). }
    subst. simpl.
    rewrite (on_tick_log config s s1 tick o1 H1).
    apply IH. exact H2.
Qed.

Lemma instructions_track_position_witness :
  exists s outs,
    run default_config init
        [Scenario.t0; Scenario.t1; Scenario.t2_break; Scenario.t3_rise;
         Scenario.t5_drop] = Return (s, outs) /\
    outs = [None; None; Some (OPEN_BUY 1.1005 1.1002000000000001);
            Some (MODIFY_SL 1.1009499999999999); Some CLOSE_BUY] /\
    replay (active_position init) outs = Some (active_position s).
Proof.
  eexists; eexists.
  split; [ vm_compute; reflexivity | ].
  split; [ reflexivity | ].
  apply (instructions_track_position default_config
           [Scenario.t0; Scenario.t1; Scenario.t2_break; Scenario.t3_rise;
            Scenario.t5_drop]).
  vm_compute; reflexivity.
Defined.

(** ** The cage while a position is open, and an engine without levels *)

(** X6 — While a position is open and stays open, the cage levels are
    frozen: a tick that does not close the position leaves both levels
    exactly as they were (they are rewritten only by the close). *)
Theorem cage_frozen_while_position_open
        (config : StraddleConfig) (s s' : StraddleLogic) (tick : MarketData)
        (out : option Instruction) :
  is_Long s \/ is_Short s ->
  on_tick config s tick = Return (s', out) ->
  active_position s' <> None ->
  virtual_buy_stop s' = virtual_buy_stop s /\
  virtual_sell_stop s' = virtual_sell_stop s.
Proof.
  intros Hopen H Hstill.
  assert (Hp : exists p, active_position s = Some p /\ is_active s = true).
  { destruct Hopen as [(A & p & Hp & _) | (A & p & Hp & _)]; eauto. }
  destruct Hp as (p & Hp & Ha).
  destruct (update_velocity_returns s tick) as [v Hv].
  assert (E : Return (s', out) =
              Return (if below_threshold config v
                      then (set_last_tick (set_velocity s v) tick, None)
                      else _manage_position config
                             (set_last_tick (set_velocity s v) tick) tick)).
  { rewrite <- H. destruct (below_threshold config v) eqn:Hgate.
    - exact (on_tick_position_gated config s tick p v Hp Hv Hgate).
    - destruct (on_tick_position_open config s tick p v Hp Hv Hgate)
        as (s2 & H2 & _ & _ & _ & _ & E2).
      rewrite H2, (E2 Ha). reflexivity. }
  assert (Es : s' = fst (if below_threshold config v
                         then (set_last_tick (set_velocity s v) tick, None)
                         else _manage_position config
                                (set_last_tick (set_velocity s v) tick) tick)).
  { exact (f_equal (fun r => match r with
                             | Return (x, _) => x
                             | Raise _ => s'
                             end) E). }
  clear E.
  destruct (below_threshold config v).
  - subst s'. simpl. auto.
  - rewrite (manage_position_cases config _ tick p) in Es by exact Hp.
    destruct (hard_stop_hit p tick).
    + exfalso. apply Hstill. subst s'.
      destruct (reset_cage_frame config
                  (set_position (set_last_tick (set_velocity s v) tick) None)
                  (Some (mid tick))) as (P & _).
      simpl in *. exact P.
    + destruct (trail_due config p tick); subst s'; simpl; auto.
Qed.

Lemma cage_frozen_while_position_open_witness :
  exists s outs s' out,
    run default_config init Scenario.long_ticks = Return (s, outs) /\
    on_tick default_config s Scenario.t3_rise = Return (s', out) /\
    out = Some (MODIFY_SL 1.1009499999999999) /\
    virtual_buy_stop s' = virtual_buy_stop s /\
    virtual_sell_stop s' = virtual_sell_stop s.
Proof.
  eexists; eexists; eexists; eexists.
  split; [ vm_compute; reflexivity | ].
  split; [ vm_compute; reflexivity | ].
  split; [ reflexivity | ].
  eapply (cage_frozen_while_position_open default_config _ _
            Scenario.t3_rise).
  - left. split; [ reflexivity | eexists; split; reflexivity ].
  - vm_compute; reflexivity.
  - discriminate.
Defined.

(** X7 — An active, flat engine whose levels are unset (its cage was last
    reset on a zero mid price) does nothing on a tick that passes the
    gate: no trailing, no breach, no instruction; only the velocity and
    the stored observation are refreshed. *)
Theorem unset_cage_is_inert
        (config : StraddleConfig) (s : StraddleLogic) (tick : MarketData)
        (v : float) :
  is_Caged s -> cage_unset s ->
  update_velocity s tick = Return v ->
  below_threshold config v = false ->
  on_tick config s tick = Return (set_last_tick (set_velocity s v) tick, None).
Proof.
  intros Hc [Hb Hs] Hv Hgate.
  rewrite (on_tick_caged_open config s tick v Hc Hv Hgate).
  unfold _manage_cage, trail_buy, trail_sell, buy_breached, sell_breached.
  simpl. rewrite Hb. simpl. rewrite Hs. simpl. rewrite Hb, Hs. reflexivity.
Qed.

Lemma unset_cage_is_inert_witness :
  exists s outs,
    run default_config init
        [mkMarketData 1 1 0; mkMarketData (-1) 1 1] = Return (s, outs) /\
    is_Caged s /\ cage_unset s /\
    on_tick default_config s Scenario.t2_break =
    Return (set_last_tick (set_velocity s 5401.3500000000004) Scenario.t2_break,
            None).
Proof.
  eexists; eexists.
  split; [ vm_compute; reflexivity | ].
  assert (C : is_Caged
                (mkStraddleLogic None None None
                                 (Some (mkMarketData (-1) 1 1)) 3000 true))
    by (split; reflexivity).
  assert (U : cage_unset
                (mkStraddleLogic None None None
                                 (Some (mkMarketData (-1) 1 1)) 3000 true))
    by (split; reflexivity).
  split; [ exact C | ]. split; [ exact U | ].
  apply (unset_cage_is_inert default_config _ Scenario.t2_break
           5401.3500000000004 C U).
  - vm_compute; reflexivity.
  - vm_compute; reflexivity.
Defined.

(** ** Resetting and trailing the cage *)

(** X8 — [reset_cage] forgets the levels it finds and is idempotent: its
    result depends on the previous state only through the other
    attributes, and resetting twice on the same anchor (given or
    defaulted from the stored tick) is the same as resetting once. *)
Theorem reset_cage_idempotent
        (config : StraddleConfig) (s : StraddleLogic)
        (anchor b v : option float) :
  reset_cage config (set_cage s b v) anchor = reset_cage config s anchor /\
  reset_cage config (reset_cage config s anchor) anchor =
  reset_cage config s anchor.
Proof.
  split.
  - unfold reset_cage, set_cage; simpl.
    destruct anchor as [a | ], (last_tick s) as [lt | ]; simpl;
      try destruct (truthy _); reflexivity.
  - unfold reset_cage.
    destruct anchor as [a | ], (last_tick s) as [lt | ] eqn:L; simpl;
      rewrite ?L; simpl;
      try match goal with
          | |- context [truthy ?x] => destruct (truthy x) eqn:T
          end;
      simpl; rewrite ?L; simpl; rewrite ?T; reflexivity.
Qed.

(** X9 — After [_manage_cage] has run on levels that were set (not [None],
    not zero), the cage is tight around the quote: the buy level is not
    above ask + gap and the sell level is not below bid − gap. *)
Theorem managed_cage_is_tight
        (config : StraddleConfig) (s : StraddleLogic) (tick : MarketData)
        (b v : float) :
  virtual_buy_stop s = Some b -> truthy b = true ->
  virtual_sell_stop s = Some v -> truthy v = true ->
  exists b' v',
    virtual_buy_stop (fst (_manage_cage config s tick)) = Some b' /\
    virtual_sell_stop (fst (_manage_cage config s tick)) = Some v' /\
    (ask tick + gap config <? b')%float = false /\
    (v' <? bid tick - gap config)%float = false.
Proof.
  intros Hb Tb Hv Tv.
  destruct (manage_cage_levels config s tick) as [Lb Ls]. simpl in Lb, Ls.
  rewrite Lb, Ls.
  destruct (trail_sell_frame config tick (trail_buy config tick s))
    as (Fb & _).
  destruct (trail_buy_frame config tick s) as (Fs & _).
  simpl in Fb, Fs. rewrite Fb.
  assert (B : exists b', virtual_buy_stop (trail_buy config tick s) = Some b' /\
                         (ask tick + gap config <? b')%float = false).
  { unfold trail_buy, gap. rewrite Hb, Tb. simpl.
    destruct (ask tick + straddle_gap_pips config / 10000 <? b)%float eqn:C.
    - eexists; split; [ reflexivity | apply ltb_irrefl ].
    - exists b; split; [ exact Hb | exact C ]. }
  assert (S : exists v', virtual_sell_stop
                           (trail_sell config tick (trail_buy config tick s))
                         = Some v' /\
                         (v' <? bid tick - gap config)%float = false).
  { unfold trail_sell at 1. unfold gap. rewrite Fs, Hv, Tv. simpl.
    destruct (v <? bid tick - straddle_gap_pips config / 10000)%float eqn:C.
    - eexists; split; [ reflexivity | apply ltb_irrefl ].
    - exists v; split; [ congruence | exact C ]. }
  destruct B as (b' & B1 & B2). destruct S as (v' & S1 & S2).
  exists b', v'. auto.
Qed.

Lemma managed_cage_is_tight_witness :
  exists s outs b' v',
    run default_config init Scenario.caged_ticks = Return (s, outs) /\
    virtual_buy_stop (fst (_manage_cage default_config s Scenario.t2_break))
    = Some b' /\
    virtual_sell_stop (fst (_manage_cage default_config s Scenario.t2_break))
    = Some v' /\
    (ask Scenario.t2_break + gap default_config <? b')%float = false /\
    (v' <? bid Scenario.t2_break - gap default_config)%float = false.
Proof.
  eexists; eexists.
  assert (R : run default_config init Scenario.caged_ticks =
              Return (mkStraddleLogic (Some 1.1004499999999999%float)
                                      (Some 1.10005%float) None
                                      (Some Scenario.t1)
                                      0.59999999999993392 true,
                      [None; None]))
    by (vm_compute; reflexivity).
  destruct (managed_cage_is_tight default_config
              (mkStraddleLogic (Some 1.1004499999999999%float)
                               (Some 1.10005%float) None
                               (Some Scenario.t1)
                               0.59999999999993392 true)
              Scenario.t2_break 1.1004499999999999 1.10005)
    as (b' & v' & H).
  - reflexivity.
  - vm_compute; reflexivity.
  - reflexivity.
  - vm_compute; reflexivity.
  - exists b', v'. split; [ exact R | exact H ].
Defined.

(** ** A velocity that is not a number *)

Section NaNVelocity.

Variable config : StraddleConfig.

Lemma return_eq {A : Type} (a b : A) : Return a = Return b -> a = b.
Proof.
  intros H.
  exact (f_equal (fun r => match r with Return x => x | Raise _ => a end) H).
Qed.

Lemma update_velocity_nan (s : StraddleLogic) (tick : MarketData) (v : float) :
  is_nan (velocity s) = true ->
  update_velocity s tick = Return v -> is_nan v = true.
Proof.
  intros Hn Hv. unfold update_velocity in Hv.
  destruct (last_tick s) as [prev | ];
    [ | apply return_eq in Hv; congruence ].
  destruct (0 <? timestamp tick - timestamp prev)%float eqn:Hdt;
    [ | apply return_eq in Hv; congruence ].
  unfold truediv in Hv. rewrite (pos_not_zero _ Hdt) in Hv. simpl in Hv.
  apply return_eq in Hv. subst v.
  apply nan_add_l, nan_mul_l. exact Hn.
Qed.

Lemma dispatch_open_active (s : StraddleLogic) (tick : MarketData) :
  (velocity s <? velocity_threshold_pips config)%float = false ->
  is_active (fst (dispatch config s tick)) = true.
Proof.
  intros Hgate. unfold dispatch. rewrite Hgate.
  set (s1 := if is_active s then s
             else reset_cage config (set_active s true) (Some (mid tick))).
  assert (A1 : is_active s1 = true).
  { subst s1. destruct (is_active s) eqn:Ha; auto.
    destruct (reset_cage_frame config (set_active s true) (Some (mid tick)))
      as (_ & _ & _ & A); auto. }
  destruct (active_position s1).
  - destruct (manage_position_frame config s1 tick) as (_ & _ & A).
    simpl in A. congruence.
  - destruct (manage_cage_frame config s1 tick) as (_ & _ & A).
    simpl in A. congruence.
Qed.

Lemma on_tick_nan (s s' : StraddleLogic) (tick : MarketData)
      (out : option Instruction) :
  is_nan (velocity s) = true ->
  on_tick config s tick = Return (s', out) ->
  is_nan (velocity s') = true /\ is_active s' = true.
Proof.
  intros Hn H.
  destruct (on_tick_returns config s tick) as (v & s1 & o1 & Hv & H1 & D & V & _).
  rewrite H in H1. apply return_eq in H1.
  assert (E : s' = s1) by exact (f_equal fst H1).
  subst s1.
  pose proof (update_velocity_nan s tick v Hn Hv) as Nv.
  split; [ congruence | ].
  change s' with (fst (s', o1)). rewrite <- D.
  apply dispatch_open_active. simpl. apply nan_ltb. exact Nv.
Qed.

End NaNVelocity.

(** X10 — A velocity that is not a number is permanent and disables the
    filter: once the smoothed velocity is NaN it is NaN after every
    further tick, the comparison with the threshold fails, so every tick
    passes the gate, and the engine is active from the first such tick
    on. *)
Theorem nan_velocity_is_permanent
        (config : StraddleConfig) (ticks : list MarketData) :
  forall (s s' : StraddleLogic) (outs : list (option Instruction)),
    is_nan (velocity s) = true ->
    run config s ticks = Return (s', outs) ->
    is_nan (velocity s') = true /\
    below_threshold config (velocity s') = false /\
    (ticks <> [] -> is_active s' = true).
Proof.
  assert (G : forall (ts : list MarketData) s s' outs,
             is_nan (velocity s) = true ->
             run config s ts = Return (s', outs) ->
             is_nan (velocity s') = true /\
             (is_active s = true \/ ts <> [] -> is_active s' = true)).
  { induction ts as [ | tick rest IH]; simpl; intros s s' outs Hn H.
    - apply return_eq in H. assert (E : s = s') by exact (f_equal fst H).
      subst s'. split; [ exact Hn | ].
      intros [Ha | Hne]; [ exact Ha | congruence ].
    - destruct (on_tick config s tick) as [[s1 o1] | e] eqn:H1; simpl in H;
        [ | discriminate H ].
      destruct (run config s1 rest) as [[s2 o2] | e] eqn:H2; simpl in H;
        [ | discriminate H ].
      apply return_eq in H. assert (E : s2 = s') by exact (f_equal fst H).
      subst s'.
      destruct (on_tick_nan config s s1 tick o1 Hn H1) as [N1 A1].
      destruct (IH s1 s2 o2 N1 H2) as [N2 A2].
      split; [ exact N2 | ]. intros _. apply A2. left. exact A1. }
  intros s s' outs Hn H.
  destruct (G ticks s s' outs Hn H) as [N A].
  split; [ exact N | ].
  split; [ unfold below_threshold; apply nan_ltb; exact N | ].
  intros Hne. apply A. right. exact Hne.
Qed.

(** X11 — One observation whose bid or ask is not a number, arriving a
    strictly positive time after the previous observation, turns the
    smoothed velocity into NaN. *)
Theorem nan_quote_poisons_velocity
        (config : StraddleConfig) (s : StraddleLogic) (tick prev : MarketData) :
  last_tick s = Some prev ->
  (0 <? timestamp tick - timestamp prev)%float = true ->
  is_nan (bid tick) = true \/ is_nan (ask tick) = true ->
  exists s' out,
    on_tick config s tick = Return (s', out) /\
    is_nan (velocity s') = true.
Proof.
  intros Hprev Hdt Hq.
  destruct (on_tick_returns config s tick) as (v & s' & out & Hv & H & _ & V & _).
  exists s', out. split; [ exact H | ].
  rewrite V. unfold update_velocity in Hv.
  rewrite Hprev, Hdt in Hv. unfold truediv in Hv.
  rewrite (pos_not_zero _ Hdt) in Hv. simpl in Hv.
  apply return_eq in Hv. subst v.
  apply nan_add_r, nan_mul_l, nan_div_l, nan_mul_l, nan_abs, nan_sub_l.
  unfold mid. apply nan_div_l.
  destruct Hq as [Hb | Ha]; [ apply nan_add_l | apply nan_add_r ]; assumption.
Qed.

Lemma nan_quote_poisons_velocity_witness :
  exists s outs s' out,
    run default_config init Scenario.caged_ticks = Return (s, outs) /\
    on_tick default_config s Scenario.t2_nan = Return (s', out) /\
    is_nan (velocity s') = true.
Proof.
  eexists; eexists.
  assert (R : run default_config init Scenario.caged_ticks =
              Return (mkStraddleLogic (Some 1.1004499999999999%float)
                                      (Some 1.10005%float) None
                                      (Some Scenario.t1)
                                      0.59999999999993392 true,
                      [None; None]))
    by (vm_compute; reflexivity).
  destruct (nan_quote_poisons_velocity default_config
              (mkStraddleLogic (Some 1.1004499999999999%float)
                               (Some 1.10005%float) None
                               (Some Scenario.t1)
                               0.59999999999993392 true)
              Scenario.t2_nan Scenario.t1) as (s' & out & H).
  - reflexivity.
  - vm_compute; reflexivity.
  - left. vm_compute; reflexivity.
  - exists s', out. split; [ exact R | exact H ].
Defined.

Lemma nan_velocity_is_permanent_witness :
  exists s s' outs,
    is_nan (velocity s) = true /\
    run default_config s [Scenario.t3; Scenario.t4] = Return (s', outs) /\
    is_nan (velocity s') = true /\
    below_threshold default_config (velocity s') = false /\
    is_active s' = true.
Proof.
  exists (mkStraddleLogic None None None (Some Scenario.t2_nan) nan false).
  destruct (run_returns default_config [Scenario.t3; Scenario.t4]
              (mkStraddleLogic None None None (Some Scenario.t2_nan) nan false))
    as (s' & outs & H).
  exists s', outs.
  assert (N : is_nan (velocity (mkStraddleLogic None None None
                                  (Some Scenario.t2_nan) nan false)) = true)
    by (vm_compute; reflexivity).
  split; [ exact N | ]. split; [ exact H | ].
  destruct (nan_velocity_is_permanent default_config
              [Scenario.t3; Scenario.t4] _ _ _ N H) as (A & B & C).
  split; [ exact A | ]. split; [ exact B | ].
  apply C. discriminate.
Defined.

(** ** The smoothing step *)

(** X12 — When a previous observation exists and the elapsed time is
    strictly positive, the tick never raises and the new smoothed velocity
    is 0.7 times the old one plus 0.3 times the instantaneous velocity
    |mid − previous mid| × 10000 / elapsed, whatever branch the rest of
    [on_tick] takes. *)
Theorem velocity_is_smoothed
        (config : StraddleConfig) (s : StraddleLogic) (tick prev : MarketData) :
  last_tick s = Some prev ->
  (0 <? timestamp tick - timestamp prev)%float = true ->
  exists s' out,
    on_tick config s tick = Return (s', out) /\
    velocity s' =
    (velocity s * 0.7 +
     abs (mid tick - mid prev) * 10000 / (timestamp tick - timestamp prev)
     * 0.3)%float.
Proof.
  intros Hprev Hdt.
  destruct (on_tick_returns config s tick) as (v & s' & out & Hv & H & _ & V & _).
  exists s', out. split; [ exact H | ].
  rewrite V. unfold update_velocity in Hv.
  rewrite Hprev, Hdt in Hv. unfold truediv in Hv.
  rewrite (pos_not_zero _ Hdt) in Hv. simpl in Hv.
  apply return_eq in Hv. symmetry. exact Hv.
Qed.

Lemma velocity_is_smoothed_witness :
  exists s' out,
    on_tick default_config (set_last_tick init Scenario.t0) Scenario.t1 =
    Return (s', out) /\
    velocity s' =
    (velocity (set_last_tick init Scenario.t0) * 0.7 +
     abs (mid Scenario.t1 - mid Scenario.t0) * 10000 /
     (timestamp Scenario.t1 - timestamp Scenario.t0) * 0.3)%float.
Proof.
  apply (velocity_is_smoothed default_config
           (set_last_tick init Scenario.t0) Scenario.t1 Scenario.t0).
  - reflexivity.
  - vm_compute; reflexivity.
Defined.
